(** * autoemp: the planner agent and the first-run initialization service

    A shallow embedding of
      - [chrome-extension/src/background/agent/agents/planner.ts]
        ([plannerOutputSchema], [PlannerAgent.execute],
        [PlannerAgent.executeWithServerPlan]) and
      - [chrome-extension/src/background/services/initialization.ts]
        ([InitializationService.ensureDefaultConfiguration]),
    followed by the properties of the planning step that the design document
    states about them.

    Conventions.  A JavaScript string is a [string] of character codes; the
    only case mapping the model knows is the one on the ASCII letters, which
    is all that a comparison with the literals ['true'] and ['false'] can
    observe.  An [async] function is a computation that threads the
    observable trace (events, log lines, outbound requests) and ends either
    with a value (the promise resolves) or with a thrown value (the promise
    rejects).  Everything the two files import from elsewhere (the error
    predicates, the sanitizer, the chat model, [fetch], the storage module)
    is an explicit parameter. *)

From Stdlib Require Import ZArith QArith String Ascii Bool Lia.
From stdpp Require Import base option list strings pretty gmap.

Open Scope string_scope.

(** ** JavaScript strings *)

Module Js.

(** [c.toLowerCase()] on one character code: [A]..[Z] move to [a]..[z]. *)
Definition lower_ascii (c : ascii) : ascii :=
  let n := nat_of_ascii c in
  if (65 <=? n)%nat && (n <=? 90)%nat then ascii_of_nat (n + 32) else c.

(** [String.prototype.toLowerCase]. *)
Fixpoint toLowerCase (s : string) : string :=
  match s with
  | EmptyString => EmptyString
  | String c rest => String (lower_ascii c) (toLowerCase rest)
  end.

(** The characters of [s], last first. *)
Fixpoint rev_chars (s : string) (acc : list ascii) : list ascii :=
  match s with
  | EmptyString => acc
  | String c rest => rev_chars rest (c :: acc)
  end.

Fixpoint of_rev_chars (l : list ascii) (acc : string) : string :=
  match l with
  | [] => acc
  | c :: rest => of_rev_chars rest (String c acc)
  end.

(** [s.replace(/\/$/, '')]: the pattern is anchored at the end of the
    string, so at most one slash, the last character, is removed. *)
Definition replace_trailing_slash (s : string) : string :=
  match rev_chars s [] with
  | "/"%char :: before => of_rev_chars before EmptyString
  | _ => s
  end.

(** Truthiness of a possibly absent string: [undefined] and [''] are falsy. *)
Definition truthy_string (s : option string) : bool :=
  match s with
  | Some EmptyString => false
  | Some _ => true
  | None => false
  end.

(** Truthiness of a possibly absent boolean. *)
Definition truthy_bool (b : option bool) : bool :=
  match b with
  | Some true => true
  | _ => false
  end.

(** [a || b] on strings, as used for defaults. *)
Definition or_default (a : option string) (b : string) : string :=
  match a with
  | Some EmptyString => b
  | Some s => s
  | None => b
  end.

End Js.

(** ** Untyped data: the result of [response.json()] *)

#[local] Unset Elimination Schemes.
Inductive json : Type :=
| JNull
| JBool (b : bool)
| JNumber (n : Z)
| JString (s : string)
| JArray (items : list json)
| JObject (members : list (string * json)).
#[local] Set Elimination Schemes.

(** [data[key]] on the own properties of an object; [None] is [undefined]. *)
Fixpoint get_member (key : string) (members : list (string * json)) : option json :=
  match members with
  | [] => None
  | (k, v) :: rest => if String.eqb k key then Some v else get_member key rest
  end.

(** ** The planner output and its schema *)

Record PlannerOutput : Type := mkPlannerOutput {
  observation : string;
  challenges : string;
  done : bool;
  next_steps : string;
  final_answer : string;
  reasoning : string;
  web_task : bool
}.

Module Zod.

Inductive ZodIssue : Type :=
| invalid_type (path : string)
| invalid_union (path : string).

(** What parsing one value gives: a value, a list of issues (collected and
    reported together in a [ZodError]), or an exception thrown by a
    [transform] callback, which leaves the parser at once. *)
Inductive Validation (A : Type) : Type :=
| Valid (a : A)
| Issues (issues : list ZodIssue)
| Threw (message : string).
Arguments Valid {A} a.
Arguments Issues {A} issues.
Arguments Threw {A} message.

(** The keys of an object schema are parsed in the order of the shape; an
    exception of an earlier key means that the later ones are never looked
    at, while issues accumulate. *)
Definition and_then {A B : Type} (f : Validation (A -> B)) (x : Validation A)
  : Validation B :=
  match f with
  | Threw m => Threw m
  | Valid g =>
      match x with
      | Valid a => Valid (g a)
      | Issues i => Issues i
      | Threw m => Threw m
      end
  | Issues i =>
      match x with
      | Valid _ => Issues i
      | Issues j => Issues (i ++ j)
      | Threw m => Threw m
      end
  end.

(** [z.string()] *)
Definition string_ (path : string) (v : option json) : Validation string :=
  match v with
  | Some (JString s) => Valid s
  | _ => Issues [invalid_type path]
  end.

(** The callback given to [z.string().transform] for [done] and [web_task]. *)
Definition boolean_of_string (val : string) : Validation bool :=
  if String.eqb (Js.toLowerCase val) "true" then Valid true
  else if String.eqb (Js.toLowerCase val) "false" then Valid false
  else Threw "Invalid boolean string".

(** [z.union([z.boolean(), z.string().transform(...)])] *)
Definition boolean_or_string (path : string) (v : option json) : Validation bool :=
  match v with
  | Some (JBool b) => Valid b
  | Some (JString s) => boolean_of_string s
  | _ => Issues [invalid_union path]
  end.

(** What [plannerOutputSchema.parse] throws when it does not return. *)
Inductive ParseFailure : Type :=
| ZodError (issues : list ZodIssue)
| TransformError (message : string).

End Zod.

Import Zod.

Declare Scope zod_scope.
Delimit Scope zod_scope with zod.
Notation "f <*> x" := (and_then f x) (at level 61, left associativity) : zod_scope.

(** [plannerOutputSchema], as a validation of the members of an object. *)
Definition plannerOutputSchema (members : list (string * json)) : Validation PlannerOutput :=
  (Valid mkPlannerOutput
     <*> string_ "observation" (get_member "observation" members)
     <*> string_ "challenges" (get_member "challenges" members)
     <*> boolean_or_string "done" (get_member "done" members)
     <*> string_ "next_steps" (get_member "next_steps" members)
     <*> string_ "final_answer" (get_member "final_answer" members)
     <*> string_ "reasoning" (get_member "reasoning" members)
     <*> boolean_or_string "web_task" (get_member "web_task" members))%zod.

(** [plannerOutputSchema.parse(data)] *)
Definition plannerOutputSchema_parse (data : json) : ParseFailure + PlannerOutput :=
  match data with
  | JObject members =>
      match plannerOutputSchema members with
      | Valid out => inr out
      | Issues issues => inl (ZodError issues)
      | Threw message => inl (TransformError message)
      end
  | _ => inl (ZodError [invalid_type ""])
  end.

(** A raw record with the seven members in the order of the wire format. *)
Definition raw_output (o c : json) (d : json) (n f r : json) (w : json) : json :=
  JObject [("observation", o); ("challenges", c); ("done", d); ("next_steps", n);
           ("final_answer", f); ("reasoning", r); ("web_task", w)].

(** ** Messages *)

(** The message classes of the chat library; [execute] only constructs
    [HumanMessage] and receives whatever the history and the prompt hold. *)
Inductive MessageType : Type := system | human | ai | tool.

(** One entry of a segmented message content. *)
Inductive ContentPart : Type :=
| TextPart (text : string)               (* type: 'text' *)
| ImageUrlPart (image_url : string)      (* type: 'image_url' *)
| OtherPart (type : string).             (* any other type *)

(** [message.content]: a plain string, or an array of parts. *)
Inductive MessageContent : Type :=
| StringContent (s : string)
| ArrayContent (parts : list ContentPart).

Record BaseMessage : Type := mkMessage {
  getType : MessageType;
  content : MessageContent
}.

(** [new HumanMessage(text)] *)
Definition HumanMessage (text : string) : BaseMessage :=
  {| getType := human; content := StringContent text |}.

(** ** Thrown values *)

(** What a [throw] can carry in this file: an [Error] with its name and
    message, the [ZodError] of a failed [parse] with its message, a value
    that is not an [Error] (kept as [String(value)]), and the four error
    classes of [./errors] that [execute] constructs. *)
Inductive JsThrown : Type :=
| JsError (name message : string)
| JsZodError (message : string)
| JsValue (text : string)
| ChatModelAuthError (message : string) (cause : JsThrown)
| ChatModelBadRequestError (message : string) (cause : JsThrown)
| RequestCancelledError (message : string)
| ChatModelForbiddenError (message : string) (cause : JsThrown).

(** [error instanceof Error ? error.message : String(error)] *)
Definition errorMessage (error : JsThrown) : string :=
  match error with
  | JsError _ message => message
  | JsZodError message => message
  | JsValue text => text
  | ChatModelAuthError message _ => message
  | ChatModelBadRequestError message _ => message
  | RequestCancelledError message => message
  | ChatModelForbiddenError message _ => message
  end.

(** [error.name] of the values that are instances of [Error]. *)
Definition errorName (error : JsThrown) : string :=
  match error with
  | JsError name _ => name
  | JsZodError _ => "ZodError"
  | JsValue _ => ""
  | ChatModelAuthError _ _ => "ChatModelAuthError"
  | ChatModelBadRequestError _ _ => "ChatModelBadRequestError"
  | RequestCancelledError _ => "RequestCancelledError"
  | ChatModelForbiddenError _ _ => "ChatModelForbiddenError"
  end.

(** [String(error)], as string concatenation computes it:
    [Error.prototype.toString] joins name and message; [ZodError]
    overrides [toString] and gives its message alone. *)
Definition String_ (error : JsThrown) : string :=
  match error with
  | JsValue text => text
  | JsZodError message => message
  | _ =>
      match errorName error, errorMessage error with
      | EmptyString, message => message
      | name, EmptyString => name
      | name, message => name ++ ": " ++ message
      end
  end.

(** ** Events, log lines and outbound requests *)

Inductive Actors : Type := PLANNER.

Inductive ExecutionState : Type := STEP_START | STEP_OK | STEP_FAIL.

Record AgentEvent : Type := mkEvent {
  actor : Actors;
  state : ExecutionState;
  data : string
}.

Inductive LogLevel : Type := log_info | log_error.

Record LogEntry : Type := mkLog {
  level : LogLevel;
  args : list string
}.

Inductive Request : Type :=
| FetchGet (url : string)
| LlmInvoke (inputMessages : list BaseMessage).

(** Everything an observer of one call can see, oldest first. *)
Record Trace : Type := mkTrace {
  events : list AgentEvent;
  logs : list LogEntry;
  requests : list Request
}.

Definition no_trace : Trace := {| events := []; logs := []; requests := [] |}.

(** ** Asynchronous computations *)

(** A computation over an observable state [S] either resolves with a value
    or rejects with a thrown value; what it did before stays done in both
    cases. *)
Definition Eff (S A : Type) : Type := S -> (JsThrown + A) * S.

Module Eff.
Section Eff.
Context {S : Type}.

Definition resolve {A : Type} (a : A) : Eff S A := fun t => (inr a, t).

Definition throw {A : Type} (e : JsThrown) : Eff S A := fun t => (inl e, t).

Definition await {A B : Type} (c : Eff S A) (k : A -> Eff S B) : Eff S B :=
  fun t =>
    match c t with
    | (inr a, t') => k a t'
    | (inl e, t') => (inl e, t')
    end.

(** [try { c } catch (error) { handler(error) }] *)
Definition try_catch {A : Type} (c : Eff S A) (handler : JsThrown -> Eff S A) : Eff S A :=
  fun t =>
    match c t with
    | (inr a, t') => (inr a, t')
    | (inl e, t') => handler e t'
    end.

(** The settled form of a computation that may reject. *)
Definition of_sum {A : Type} (r : JsThrown + A) : Eff S A :=
  match r with
  | inr a => resolve a
  | inl e => throw e
  end.

End Eff.
End Eff.

Declare Scope eff_scope.
Delimit Scope eff_scope with eff.
Notation "'let*' x ':=' c 'in' k" := (Eff.await c (fun x => k))
  (at level 10, x name, c at level 100, k at level 200) : eff_scope.
Notation "c ';;' k" := (Eff.await c (fun _ => k))
  (at level 100, k at level 200, right associativity) : eff_scope.

(** The computations of the planner run over its trace. *)
Definition Async (A : Type) : Type := Eff Trace A.

Module Async.

Definition add_event (e : AgentEvent) (t : Trace) : Trace :=
  {| events := events t ++ [e]; logs := logs t; requests := requests t |}.

Definition add_log (l : LogEntry) (t : Trace) : Trace :=
  {| events := events t; logs := logs t ++ [l]; requests := requests t |}.

Definition add_request (r : Request) (t : Trace) : Trace :=
  {| events := events t; logs := logs t; requests := requests t ++ [r] |}.

Definition emit (e : AgentEvent) : Async unit := fun t => (inr tt, add_event e t).

Definition log (l : LogEntry) : Async unit := fun t => (inr tt, add_log l t).

Definition request (r : Request) : Async unit := fun t => (inr tt, add_request r t).

(** Running a computation from an empty trace. *)
Definition run {A : Type} (c : Async A) : (JsThrown + A) * Trace := c no_trace.

End Async.

(** ** What [planner.ts] imports *)

(** [./errors]: the four predicates on thrown values and the fixed message
    of the forbidden error. *)
Class ErrorsModule : Type := {
  isAuthenticationError : JsThrown -> bool;
  isBadRequestError : JsThrown -> bool;
  isAbortedError : JsThrown -> bool;
  isForbiddenError : JsThrown -> bool;
  LLM_FORBIDDEN_ERROR_MESSAGE : string
}.

(** [../messages/utils] *)
Class MessagesUtils : Type := {
  filterExternalContent : string -> string
}.

(** What [fetch] settles to: a rejection (network failure, abort), or a
    response with its status line and the outcome of [response.json()]. *)
Record Response : Type := mkResponse {
  status : Z;
  statusText : string;
  body : JsThrown + json
}.

(** [response.ok]: the status is in the range 200-299. *)
Definition ok (response : Response) : bool :=
  (200 <=? status response)%Z && (status response <=? 299)%Z.

(** The surroundings of one call of [execute]: the network, the chat model
    behind [BaseAgent.invoke] (which resolves with a validated output or
    with [null], or rejects), the prompt, and the library functions that
    only produce text for the log. *)
Class Runtime : Type := {
  fetch : string -> JsThrown + Response;
  invoke_outcome : list BaseMessage -> JsThrown + option PlannerOutput;
  getSystemMessage : BaseMessage;
  JSON_stringify : PlannerOutput -> string;
  zodErrorMessage : list ZodIssue -> string
}.

(** ** The agent *)

Record PlannerConfig : Type := mkPlannerConfig {
  useServerForFirstPlan : option bool;
  serverPlanEndpoint : option string
}.

Record AgentOptions : Type := mkAgentOptions {
  useVision : bool;
  useVisionForPlanner : bool
}.

(** The part of the execution context that [execute] reads. *)
Record AgentContext : Type := mkAgentContext {
  nSteps : nat;
  options : AgentOptions;
  getMessages : list BaseMessage
}.

Record PlannerAgent : Type := mkPlannerAgent {
  id : string;
  context : AgentContext;
  plannerConfig : option PlannerConfig
}.

(** [AgentOutput<PlannerOutput>]: [result] and [error] are optional;
    [output_id] is its field [id]. *)
Record AgentOutput : Type := mkAgentOutput {
  output_id : string;
  result : option PlannerOutput;
  error : option string
}.

(** [this.plannerConfig?.useServerForFirstPlan] *)
Definition config_useServerForFirstPlan (this : PlannerAgent) : option bool :=
  match plannerConfig this with
  | Some cfg => useServerForFirstPlan cfg
  | None => None
  end.

(** [this.plannerConfig?.serverPlanEndpoint] *)
Definition config_serverPlanEndpoint (this : PlannerAgent) : option string :=
  match plannerConfig this with
  | Some cfg => serverPlanEndpoint cfg
  | None => None
  end.

(** What [parse] throws, as a thrown value. *)
Definition thrown_of_parse `{Runtime} (f : ParseFailure) : JsThrown :=
  match f with
  | ZodError issues => JsZodError (zodErrorMessage issues)
  | TransformError message => JsError "Error" message
  end.

Section Planner.
Context `{ErrorsModule} `{MessagesUtils} `{Runtime}.

Local Open Scope eff_scope.

Definition emitEvent (a : Actors) (s : ExecutionState) (message : string) : Async unit :=
  Async.emit {| actor := a; state := s; data := message |}.

Definition logger_info (arguments : list string) : Async unit :=
  Async.log {| level := log_info; args := arguments |}.

Definition logger_error (arguments : list string) : Async unit :=
  Async.log {| level := log_error; args := arguments |}.

(** [this.invoke(plannerMessages)]: one call of the chat model. *)
Definition invoke (inputMessages : list BaseMessage) : Async (option PlannerOutput) :=
  Async.request (LlmInvoke inputMessages);;
  Eff.of_sum (invoke_outcome inputMessages).

(** The route that [executeWithServerPlan] appends to the endpoint. *)
Definition apiUrl_of (endpoint : string) : string :=
  Js.replace_trailing_slash endpoint ++ "/planner/ReplyMessage/Facebook".

(** [PlannerAgent.executeWithServerPlan] *)
Definition executeWithServerPlan (this : PlannerAgent) : Async PlannerOutput :=
  let endpoint := config_serverPlanEndpoint this in
  if negb (Js.truthy_string endpoint) then
    Eff.throw (JsError "Error" "Server plan endpoint not configured")
  else
    let apiUrl := apiUrl_of (default "" endpoint) in
    logger_info ["Fetching plan from server: " ++ apiUrl];;
    Async.request (FetchGet apiUrl);;
    let* response := Eff.of_sum (fetch apiUrl) in
    if negb (ok response) then
      Eff.throw (JsError "Error"
        ("Server returned " ++ pretty (status response) ++ ": " ++ statusText response))
    else
      let* serverPlan := Eff.of_sum (body response) in
      match plannerOutputSchema_parse serverPlan with
      | inl failure => Eff.throw (thrown_of_parse failure)
      | inr planOutput =>
          logger_info ["Server plan received"; JSON_stringify planOutput];;
          Eff.resolve planOutput
      end.

(** The loop over the parts of the last message: text parts are appended,
    every other part is skipped. *)
Definition append_text (newMsg : string) (msg : ContentPart) : string :=
  match msg with
  | TextPart text => newMsg ++ text
  | _ => newMsg
  end.

(** Lines 78-92: the last message is replaced by a [HumanMessage] holding
    the text of its parts, or its content when that is a plain string. *)
Definition replace_last_message (plannerMessages : list BaseMessage)
  : Async (list BaseMessage) :=
  let last_index := (length plannerMessages - 1)%nat in
  match plannerMessages !! last_index with
  | None =>
      Eff.throw (JsError "TypeError" "Cannot read properties of undefined (reading 'content')")
  | Some lastStateMessage =>
      let newMsg :=
        match content lastStateMessage with
        | ArrayContent parts => fold_left append_text parts ""
        | StringContent s => s
        end in
      Eff.resolve (<[last_index := HumanMessage newMsg]> plannerMessages)
  end.

(** Lines 72-93: the message sequence handed to the planner. *)
Definition assemble_messages (this : PlannerAgent) : Async (list BaseMessage) :=
  let messages := getMessages (context this) in
  let plannerMessages := getSystemMessage :: drop 1 messages in
  if negb (useVisionForPlanner (options (context this))) && useVision (options (context this))
  then replace_last_message plannerMessages
  else Eff.resolve plannerMessages.

(** Lines 97-101: the condition of the server-first branch. *)
Definition uses_server_plan (this : PlannerAgent) : bool :=
  Nat.eqb (nSteps (context this)) 0
  && Js.truthy_bool (config_useServerForFirstPlan this)
  && Js.truthy_string (config_serverPlanEndpoint this).

(** Lines 96-113: the model output, from the server or from the chat model. *)
Definition get_model_output (this : PlannerAgent) (plannerMessages : list BaseMessage)
  : Async (option PlannerOutput) :=
  if uses_server_plan this then
    logger_info ["Using server-based planning for first call"];;
    Eff.try_catch
      (let* planOutput := executeWithServerPlan this in Eff.resolve (Some planOutput))
      (fun error =>
         logger_error ["Server planning failed: " ++ String_ error];;
         logger_info ["Falling back to LLM-based planning"];;
         invoke plannerMessages)
  else
    invoke plannerMessages.

(** Lines 120-133: the cleaned copy of the model output. *)
Definition clean (modelOutput : PlannerOutput) : PlannerOutput :=
  let observation' := filterExternalContent (observation modelOutput) in
  let final_answer' := filterExternalContent (final_answer modelOutput) in
  let next_steps' := filterExternalContent (next_steps modelOutput) in
  let challenges' := filterExternalContent (challenges modelOutput) in
  let reasoning' := filterExternalContent (reasoning modelOutput) in
  {| observation := observation';
     challenges := challenges';
     done := done modelOutput;
     next_steps := next_steps';
     final_answer := final_answer';
     reasoning := reasoning';
     web_task := web_task modelOutput |}.

(** The body of the [try] block of [execute] (lines 69-143). *)
Definition execute_try (this : PlannerAgent) : Async AgentOutput :=
  emitEvent PLANNER STEP_START "Planning...";;
  let* plannerMessages := assemble_messages this in
  let* modelOutput := get_model_output this plannerMessages in
  match modelOutput with
  | None => Eff.throw (JsError "Error" "Failed to validate planner output")
  | Some modelOutput =>
      let cleanedPlan := clean modelOutput in
      let eventMessage :=
        if done cleanedPlan then final_answer cleanedPlan else next_steps cleanedPlan in
      emitEvent PLANNER STEP_OK eventMessage;;
      logger_info ["Planner output"; JSON_stringify cleanedPlan];;
      Eff.resolve {| output_id := id this; result := Some cleanedPlan; error := None |}
  end.

(** The [catch] block of [execute] (lines 144-163). *)
Definition execute_catch (this : PlannerAgent) (error : JsThrown) : Async AgentOutput :=
  let errorMessage := errorMessage error in
  if isAuthenticationError error then
    Eff.throw (ChatModelAuthError errorMessage error)
  else if isBadRequestError error then
    Eff.throw (ChatModelBadRequestError errorMessage error)
  else if isAbortedError error then
    Eff.throw (RequestCancelledError errorMessage)
  else if isForbiddenError error then
    Eff.throw (ChatModelForbiddenError LLM_FORBIDDEN_ERROR_MESSAGE error)
  else
    logger_error ["Planning failed: " ++ errorMessage];;
    emitEvent PLANNER STEP_FAIL ("Planning failed: " ++ errorMessage);;
    Eff.resolve {| output_id := id this; result := None; error := Some errorMessage |}.

(** [PlannerAgent.execute] *)
Definition execute (this : PlannerAgent) : Async AgentOutput :=
  Eff.try_catch (execute_try this) (execute_catch this).

End Planner.

(** ** The initialization service *)

Module Initialization.

Inductive ProviderTypeEnum : Type := CustomOpenAI.

Inductive AgentNameEnum : Type := Planner | Navigator.

Record ProviderConfig : Type := mkProviderConfig {
  name : string;
  type : ProviderTypeEnum;
  apiKey : string;
  baseUrl : string;
  modelNames : list string;
  createdAt : Z
}.

Record ModelConfig : Type := mkModelConfig {
  provider : string;
  modelName : string;
  parameters : list (string * Q);
  reasoningEffort : string
}.

(** The calls that reach the storage module. *)
Inductive StoreCall : Type :=
| GetAllProviders
| SetProvider (providerId : string) (config : ProviderConfig)
| SetAgentModel (agent : AgentNameEnum) (config : ModelConfig).

(** A call that writes to a store. *)
Definition is_write (c : StoreCall) : bool :=
  match c with
  | GetAllProviders => false
  | SetProvider _ _ => true
  | SetAgentModel _ _ => true
  end.

(** [@extension/storage]: the two stores over some storage state; every
    operation may reject and may change the state. *)
Class StorageModule : Type := {
  Storage : Type;
  getAllProviders : Storage -> (JsThrown + gmap string ProviderConfig) * Storage;
  setProvider : string -> ProviderConfig -> Storage -> (JsThrown + unit) * Storage;
  setAgentModel : AgentNameEnum -> ModelConfig -> Storage -> (JsThrown + unit) * Storage
}.

(** The build environment and the clock. *)
Class Environment : Type := {
  VITE_REPLYZY_BACKEND : option string;
  Date_now : Z
}.

(** What a call of the service can touch: the storage, and the record of
    the store calls and log lines it made, oldest first. *)
Record World `{StorageModule} : Type := mkWorld {
  storage : Storage;
  calls : list StoreCall;
  log_lines : list LogEntry
}.

(** [Object.keys(o)] *)
Definition Object_keys {V : Type} (o : gmap string V) : list string :=
  (map_to_list o).*1.

Section Service.
Context `{StorageModule} `{Environment}.

Local Open Scope eff_scope.

Definition logger_info (arguments : list string) : Eff World unit :=
  fun w => (inr tt, {| storage := storage w; calls := calls w;
                       log_lines := log_lines w ++ [{| level := log_info; args := arguments |}] |}).

Definition logger_error (arguments : list string) : Eff World unit :=
  fun w => (inr tt, {| storage := storage w; calls := calls w;
                       log_lines := log_lines w ++ [{| level := log_error; args := arguments |}] |}).

(** One store operation: the call is recorded, then it runs on the storage. *)
Definition store_call {A : Type} (c : StoreCall)
    (op : Storage -> (JsThrown + A) * Storage) : Eff World A :=
  fun w =>
    let (r, s') := op (storage w) in
    (r, {| storage := s'; calls := calls w ++ [c]; log_lines := log_lines w |}).

Definition llmProviderStore_getAllProviders : Eff World (gmap string ProviderConfig) :=
  store_call GetAllProviders getAllProviders.

Definition llmProviderStore_setProvider (providerId : string) (config : ProviderConfig)
  : Eff World unit :=
  store_call (SetProvider providerId config) (setProvider providerId config).

Definition agentModelStore_setAgentModel (agent : AgentNameEnum) (config : ModelConfig)
  : Eff World unit :=
  store_call (SetAgentModel agent config) (setAgentModel agent config).

(** The local function [getModelParameters]. *)
Definition getModelParameters (agent : AgentNameEnum) : list (string * Q) :=
  [("temperature", 1 # 10); ("topP", 1 # 10)]%Q.

(** The body of the [try] block (lines 16-70). *)
Definition ensureDefaultConfiguration_try : Eff World unit :=
  let* providers := llmProviderStore_getAllProviders in
  let hasProviders := (0 <? length (Object_keys providers))%nat in
  if hasProviders then
    logger_info ["Providers already configured, skipping default setup"];;
    Eff.resolve tt
  else
    let replyzyProviderId := "replyzy" in
    let replyzyBackendUrl := Js.or_default VITE_REPLYZY_BACKEND "http://localhost:7200/" in
    logger_info ["Setting up default Replyzy provider with backend URL:"; replyzyBackendUrl];;
    let replyzyProvider :=
      {| name := "Replyzy";
         type := CustomOpenAI;
         apiKey := "";
         baseUrl := replyzyBackendUrl;
         modelNames := ["gpt-5"; "gpt-5-mini"];
         createdAt := Date_now |} in
    llmProviderStore_setProvider replyzyProviderId replyzyProvider;;
    logger_info ["Created default Replyzy provider"];;
    let plannerParams := getModelParameters Planner in
    agentModelStore_setAgentModel Planner
      {| provider := replyzyProviderId;
         modelName := "gpt-5-mini";
         parameters := plannerParams;
         reasoningEffort := "medium" |};;
    logger_info ["Configured default Planner model with gpt-5-mini"];;
    let navigatorParams := getModelParameters Navigator in
    agentModelStore_setAgentModel Navigator
      {| provider := replyzyProviderId;
         modelName := "gpt-5-mini";
         parameters := navigatorParams;
         reasoningEffort := "medium" |};;
    logger_info ["Configured default Navigator model with gpt-5-mini"];;
    logger_info ["Default configuration setup completed successfully"].

(** [InitializationService.ensureDefaultConfiguration] *)
Definition ensureDefaultConfiguration : Eff World unit :=
  Eff.try_catch ensureDefaultConfiguration_try
    (fun error =>
       logger_error ["Failed to create default configuration:"; String_ error]).

End Service.

End Initialization.

(** ** Notions of the design document *)

(** Equality of strings up to the case of ASCII letters, character by
    character: this is the wording "case-insensitively" of the document,
    to be compared with the test [val.toLowerCase() === lit] of the code. *)
Definition is_upper (c : ascii) : bool :=
  (65 <=? nat_of_ascii c)%nat && (nat_of_ascii c <=? 90)%nat.

Definition upper_of (c l : ascii) : bool :=
  is_upper c && Nat.eqb (nat_of_ascii c + 32) (nat_of_ascii l).

Definition same_letter (a b : ascii) : bool :=
  Ascii.eqb a b || upper_of a b || upper_of b a.

Fixpoint equal_ignoring_case (s t : string) : bool :=
  match s, t with
  | EmptyString, EmptyString => true
  | String a s', String b t' => same_letter a b && equal_ignoring_case s' t'
  | _, _ => false
  end.

(** A raw value that the document lets a boolean field take, with the
    boolean it stands for. *)
Definition boolean_like (v : json) (b : bool) : Prop :=
  v = JBool b \/
  exists s, v = JString s /\
            equal_ignoring_case s (if b then "true" else "false") = true.

(** A string that spells neither boolean. *)
Definition not_a_boolean (v : option json) : Prop :=
  exists s, v = Some (JString s) /\
            equal_ignoring_case s "true" = false /\
            equal_ignoring_case s "false" = false.

(** The failure kinds of the error classifier, and the classifier as the
    document words it: an ordered list of tests of which the first that
    matches wins. *)
Inductive FailureKind : Type :=
| Authentication | BadRequest | Cancelled | Forbidden | Unclassified.

Fixpoint first_match (tests : list ((JsThrown -> bool) * FailureKind))
    (otherwise : FailureKind) (e : JsThrown) : FailureKind :=
  match tests with
  | [] => otherwise
  | (test, kind) :: rest => if test e then kind else first_match rest otherwise e
  end.

Definition classify `{ErrorsModule} : JsThrown -> FailureKind :=
  first_match [(isAuthenticationError, Authentication);
               (isBadRequestError, BadRequest);
               (isAbortedError, Cancelled);
               (isForbiddenError, Forbidden)] Unclassified.

(** The failure kind that a settled call of [execute] shows its caller:
    one of the four typed errors when it rejects, and the unclassified
    failure when it resolves with an outcome that carries [error]. *)
Definition propagated_kind (r : JsThrown + AgentOutput) : option FailureKind :=
  match r with
  | inl (ChatModelAuthError _ _) => Some Authentication
  | inl (ChatModelBadRequestError _ _) => Some BadRequest
  | inl (RequestCancelledError _) => Some Cancelled
  | inl (ChatModelForbiddenError _ _) => Some Forbidden
  | inl _ => None
  | inr out => match error out with Some _ => Some Unclassified | None => None end
  end.

(** Counting the events of a kind in a trace. *)
Definition is_state (s : ExecutionState) (e : AgentEvent) : bool :=
  match s, state e with
  | STEP_START, STEP_START | STEP_OK, STEP_OK | STEP_FAIL, STEP_FAIL => true
  | _, _ => false
  end.

Definition count_state (s : ExecutionState) (t : Trace) : nat :=
  length (List.filter (is_state s) (events t)).

(** The terminal events of a step are its step-ok and step-fail events. *)
Definition count_terminal (t : Trace) : nat :=
  (count_state STEP_OK t + count_state STEP_FAIL t)%nat.

Definition is_level (l : LogLevel) (e : LogEntry) : bool :=
  match l, level e with
  | log_info, log_info | log_error, log_error => true
  | _, _ => false
  end.

Definition count_level (l : LogLevel) (t : Trace) : nat :=
  length (List.filter (is_level l) (logs t)).

(** The text segments of a segmented content, concatenated in their order;
    image-bearing and other segments are left out. *)
Definition text_of_part (p : ContentPart) : option string :=
  match p with
  | TextPart text => Some text
  | _ => None
  end.

Definition text_segments (parts : list ContentPart) : string :=
  String.concat "" (omap text_of_part parts).

(** The final message of the planning input built from a sequence whose
    final message is [m]: a human message with the text segments of [m], or
    with the content of [m] when it is not segmented. *)
Definition without_images (m : BaseMessage) : BaseMessage :=
  HumanMessage match content m with
               | ArrayContent parts => text_segments parts
               | StringContent s => s
               end.

(** The ways in which the remote planning call fails, by what [fetch]
    settles to: a rejection (network error, abort), a status outside
    200-299, a body that [response.json()] cannot read, and a body that the
    schema does not accept. *)
Inductive RemoteFailure : JsThrown + Response -> Prop :=
| network_error (e : JsThrown) :
    RemoteFailure (inl e)
| non_2xx_status (r : Response) :
    ok r = false -> RemoteFailure (inr r)
| unreadable_body (r : Response) (e : JsThrown) :
    ok r = true -> body r = inl e -> RemoteFailure (inr r)
| schema_invalid_body (r : Response) (serverPlan : json) (f : ParseFailure) :
    ok r = true -> body r = inr serverPlan ->
    plannerOutputSchema_parse serverPlan = inl f -> RemoteFailure (inr r).

(** A rejection with one of the four typed errors of [./errors]. *)
Definition is_typed_error (e : JsThrown) : bool :=
  match e with
  | ChatModelAuthError _ _ | ChatModelBadRequestError _ _
  | RequestCancelledError _ | ChatModelForbiddenError _ _ => true
  | _ => false
  end.

(** The message sequence that a step hands to the planner: what
    [assemble_messages] resolves with. *)
Definition planning_input `{Runtime} (this : PlannerAgent) : list BaseMessage :=
  match fst (assemble_messages this no_trace) with
  | inr plannerMessages => plannerMessages
  | inl _ => []
  end.

(** The address of the remote planning call of an agent. *)
Definition server_url (this : PlannerAgent) : string :=
  apiUrl_of (default "" (config_serverPlanEndpoint this)).

(** The text of the step-ok event for a model output: the sanitized final
    answer when the task is done, the sanitized next steps otherwise. *)
Definition outcome_text `{MessagesUtils} (modelOutput : PlannerOutput) : string :=
  if done modelOutput then filterExternalContent (final_answer modelOutput)
  else filterExternalContent (next_steps modelOutput).

Definition step_ok `{MessagesUtils} (modelOutput : PlannerOutput) : AgentEvent :=
  {| actor := PLANNER; state := STEP_OK; data := outcome_text modelOutput |}.

(** The trace of a server-first step up to the remote request, and up to
    the fallback call of the chat model after the remote call failed with
    [e]. *)
Definition server_attempt (this : PlannerAgent) (t : Trace) : Trace :=
  Async.add_request (FetchGet (server_url this))
    (Async.add_log {| level := log_info;
                      args := ["Fetching plan from server: " ++ server_url this] |}
       (Async.add_log {| level := log_info;
                         args := ["Using server-based planning for first call"] |} t)).

Definition fallback (this : PlannerAgent) (e : JsThrown)
    (plannerMessages : list BaseMessage) (t : Trace) : Trace :=
  Async.add_request (LlmInvoke plannerMessages)
    (Async.add_log {| level := log_info; args := ["Falling back to LLM-based planning"] |}
       (Async.add_log {| level := log_error;
                         args := ["Server planning failed: " ++ String_ e] |}
          (server_attempt this t))).

(** The event and the log line of an unclassified failure. *)
Definition step_fail (e : JsThrown) : AgentEvent :=
  {| actor := PLANNER; state := STEP_FAIL; data := "Planning failed: " ++ errorMessage e |}.

Definition planning_failed_line (e : JsThrown) : LogEntry :=
  {| level := log_error; args := ["Planning failed: " ++ errorMessage e] |}.

(** The event that opens a step. *)
Definition step_start : AgentEvent :=
  {| actor := PLANNER; state := STEP_START; data := "Planning..." |}.

(** ** The content sanitizer *)

Module Sanitizer.
Section Sanitizer.

(** The markers of untrusted content; the empty string marks nothing. *)
Variable markers : list string.

(** [s.startsWith(m)] *)
Fixpoint starts_with (m s : string) : bool :=
  match m, s with
  | EmptyString, _ => true
  | String a m', String b s' => Ascii.eqb a b && starts_with m' s'
  | String _ _, EmptyString => false
  end.

(** The first non-empty marker that starts the text [s], as the number of
    its characters after the first one. *)
Fixpoint marker_at (ms : list string) (s : string) : option nat :=
  match ms with
  | [] => None
  | EmptyString :: rest => marker_at rest s
  | String a m' :: rest =>
      if starts_with (String a m') s then Some (String.length m') else marker_at rest s
  end.

(** One pass over the text, left to right: a marker that starts at the
    current position is left out and the scan goes on behind it; [skip]
    counts the characters of the current marker still to leave out. *)
Fixpoint remove_markers (skip : nat) (s : string) : string :=
  match s with
  | EmptyString => EmptyString
  | String c rest =>
      match skip with
      | S k => remove_markers k rest
      | O =>
          match marker_at markers s with
          | Some k => remove_markers k rest
          | None => String c (remove_markers 0 rest)
          end
      end
  end.

(** Passes are repeated until one of them changes nothing. *)
Fixpoint until_stable (fuel : nat) (s : string) : string :=
  match fuel with
  | O => s
  | S n =>
      let s' := remove_markers 0 s in
      if String.eqb s' s then s else until_stable n s'
  end.

(** Modelled from the spec: [filterExternalContent] of
    [../messages/utils], which is not among the sources.  The document
    says that the sanitizer "strips untrusted/external content markers"
    from a text, "removing or neutralizing markers that denote content
    originating from an untrusted external source", so that such content
    "cannot spoof system-level instructions when re-inserted".  This is
    read as: no marker is left in the returned text, hence the repeated
    passes.  Which markers there are is a parameter. *)
Definition sanitize (text : string) : string :=
  until_stable (String.length text) text.

Definition utils : MessagesUtils := {| filterExternalContent := sanitize |}.

End Sanitizer.
End Sanitizer.

(** ** Concrete surroundings, to run the model on examples *)

Module Sample.

(** Error predicates that recognise a thrown value by its name. *)
Definition errors_by_name : ErrorsModule := {|
  isAuthenticationError e := String.eqb (errorName e) "AuthenticationError";
  isBadRequestError e := String.eqb (errorName e) "BadRequestError";
  isAbortedError e := String.eqb (errorName e) "AbortError";
  isForbiddenError e := String.eqb (errorName e) "ForbiddenError";
  LLM_FORBIDDEN_ERROR_MESSAGE := "Access denied"
|}.

(** A sanitizer that finds nothing to remove. *)
Definition no_filter : MessagesUtils := {| filterExternalContent s := s |}.

Definition system_prompt : BaseMessage :=
  {| getType := system; content := StringContent "You are a planner." |}.

(** A network that settles every request with [f], and a chat model that
    settles every call with [i]. *)
Definition runtime (f : JsThrown + Response) (i : JsThrown + option PlannerOutput) : Runtime := {|
  fetch _ := f;
  invoke_outcome _ := i;
  getSystemMessage := system_prompt;
  JSON_stringify _ := "{...}";
  zodErrorMessage _ := "[...]"
|}.

Definition plan (d : bool) : PlannerOutput :=
  {| observation := "o"; challenges := "c"; done := d; next_steps := "n";
     final_answer := "FINAL"; reasoning := "r"; web_task := false |}.

Definition server_first : PlannerConfig :=
  {| useServerForFirstPlan := Some true; serverPlanEndpoint := Some "https://x/" |}.

Definition state_message : BaseMessage :=
  {| getType := human;
     content := ArrayContent [TextPart "Current tab: "; ImageUrlPart "data:image/png;base64,AAAA";
                              TextPart "inbox"] |}.

(** An agent at step [n] with the given vision flags and history. *)
Definition agent (n : nat) (vision planner_vision : bool) (history : list BaseMessage)
    (cfg : option PlannerConfig) : PlannerAgent :=
  {| id := "planner";
     context := {| nSteps := n;
                   options := {| useVision := vision; useVisionForPlanner := planner_vision |};
                   getMessages := history |};
     plannerConfig := cfg |}.

Definition abort_error : JsThrown := JsError "AbortError" "The operation was aborted.".

Definition auth_error : JsThrown := JsError "AuthenticationError" "401 invalid api key".

Definition http_500 : Response :=
  {| status := 500; statusText := "Internal Server Error"; body := inr JNull |}.

(** The history of a running task: the system prompt of the navigator, the
    task, and the state message with a screenshot. *)
Definition history : list BaseMessage :=
  [system_prompt; HumanMessage "Reply to the new messages"; state_message].

(** A history that ends with an answer of the model. *)
Definition model_answer : BaseMessage :=
  {| getType := ai; content := StringContent "Opening the inbox." |}.

Definition history_with_answer : list BaseMessage :=
  [system_prompt; HumanMessage "Reply to the new messages"; model_answer].

(** [hay.includes(needle)] *)
Definition includes (hay needle : string) : bool :=
  match String.index 0 needle hay with
  | Some _ => true
  | None => false
  end.

(** Looser error predicates, which also look into the message; one error
    can then satisfy several of them. *)
Definition errors_by_text : ErrorsModule := {|
  isAuthenticationError e :=
    String.eqb (errorName e) "AuthenticationError" || includes (errorMessage e) "401";
  isBadRequestError e :=
    String.eqb (errorName e) "BadRequestError" || includes (errorMessage e) "400";
  isAbortedError e :=
    String.eqb (errorName e) "AbortError" || includes (errorMessage e) "abort";
  isForbiddenError e :=
    String.eqb (errorName e) "ForbiddenError" || includes (errorMessage e) "403";
  LLM_FORBIDDEN_ERROR_MESSAGE := "Access denied"
|}.

(** An abort that the provider reports with an HTTP 401 text. *)
Definition abort_401 : JsThrown := JsError "AbortError" "401 request aborted".

(** The body of the end-to-end scenario of the document. *)
Definition http_200 : Response :=
  {| status := 200; statusText := "OK";
     body := inr (raw_output (JString "o") (JString "c") (JString "true") (JString "n")
                             (JString "FINAL") (JString "r") (JString "false")) |}.

End Sample.

(** A storage for the initialization service: the providers, the agent
    models, and how many more writes it accepts before it rejects with a
    quota error. *)
Module SampleStore.
Import Initialization.

Record state : Type := mkState {
  providers : gmap string ProviderConfig;
  agentModels : list (AgentNameEnum * ModelConfig);
  quota : nat
}.

Definition quota_error : JsThrown := JsError "Error" "QUOTA_BYTES quota exceeded".

Definition store : StorageModule := {|
  Storage := state;
  getAllProviders s := (inr (providers s), s);
  setProvider providerId config s :=
    match quota s with
    | O => (inl quota_error, s)
    | S q => (inr tt, {| providers := <[providerId := config]> (providers s);
                         agentModels := agentModels s; quota := q |})
    end;
  setAgentModel agent config s :=
    match quota s with
    | O => (inl quota_error, s)
    | S q => (inr tt, {| providers := providers s;
                         agentModels := (agent, config) :: agentModels s; quota := q |})
    end
|}.

Definition environment : Environment :=
  {| VITE_REPLYZY_BACKEND := None; Date_now := 1762128000000 |}.

Definition openai : ProviderConfig :=
  {| name := "OpenAI"; type := CustomOpenAI; apiKey := "sk-test";
     baseUrl := "https://api.openai.com/v1"; modelNames := ["gpt-5"];
     createdAt := 1700000000000 |}.

(** A browser profile in which one provider is configured. *)
Definition configured : World (H := store) :=
  {| storage := mkState {[ "openai" := openai ]} [] 10 : @Storage store;
     calls := []; log_lines := [] |}.

(** A fresh profile whose storage accepts one more write. *)
Definition fresh_nearly_full : World (H := store) :=
  {| storage := mkState ∅ [] 1 : @Storage store;
     calls := []; log_lines := [] |}.

(** A fresh profile whose storage accepts two more writes. *)
Definition fresh_two_writes : World (H := store) :=
  {| storage := mkState ∅ [] 2 : @Storage store;
     calls := []; log_lines := [] |}.

End SampleStore.

(** ** Further notions *)

(** The plan that a settled remote call carries: the response is in the
    2xx range, its body can be read and the schema accepts it. *)
Definition remote_plan (f : JsThrown + Response) : option PlannerOutput :=
  match f with
  | inr r =>
      if ok r then
        match body r with
        | inr serverPlan =>
            match plannerOutputSchema_parse serverPlan with
            | inr planOutput => Some planOutput
            | inl _ => None
            end
        | inl _ => None
        end
      else None
  | inl _ => None
  end.

(** The error with which a failed remote planning call ends: the rejection
    of [fetch], the error that reports a status outside 200-299, the
    rejection of [response.json()], or what [parse] throws. *)
Definition remote_error `{Runtime} (f : JsThrown + Response) : option JsThrown :=
  match f with
  | inl e => Some e
  | inr r =>
      if ok r then
        match body r with
        | inl e => Some e
        | inr serverPlan =>
            match plannerOutputSchema_parse serverPlan with
            | inl failure => Some (thrown_of_parse failure)
            | inr _ => None
            end
        end
      else Some (JsError "Error"
                   ("Server returned " ++ pretty (status r) ++ ": " ++ statusText r))
  end.

(** The log lines of a remote planning call that failed with [e]: the two
    lines of the attempt, the failure at error level, and the fallback. *)
Definition attempt_lines (this : PlannerAgent) (e : JsThrown) : list LogEntry :=
  [{| level := log_info; args := ["Using server-based planning for first call"] |};
   {| level := log_info; args := ["Fetching plan from server: " ++ server_url this] |};
   {| level := log_error; args := ["Server planning failed: " ++ String_ e] |};
   {| level := log_info; args := ["Falling back to LLM-based planning"] |}].

(** The error with which the step body ends when the chat model gives no
    plan: what it threw, or the error raised for a [null] output. *)
Definition model_failure (o : JsThrown + option PlannerOutput) : option JsThrown :=
  match o with
  | inl e => Some e
  | inr None => Some (JsError "Error" "Failed to validate planner output")
  | inr (Some _) => None
  end.

(** The same agent constructed without a planner configuration. *)
Definition without_config (this : PlannerAgent) : PlannerAgent :=
  {| id := id this; context := context this; plannerConfig := None |}.

Definition is_fetch (r : Request) : bool :=
  match r with
  | FetchGet _ => true
  | LlmInvoke _ => false
  end.

(** The log line of a remote plan that was received. *)
Definition plan_received_line `{Runtime} (planOutput : PlannerOutput) : LogEntry :=
  {| level := log_info; args := ["Server plan received"; JSON_stringify planOutput] |}.

Module Setup.
Import Initialization.
Section Setup.
Context `{Environment}.

(** The provider and the model configuration that the service writes. *)
Definition replyzyProvider : ProviderConfig :=
  {| name := "Replyzy";
     type := CustomOpenAI;
     apiKey := "";
     baseUrl := Js.or_default VITE_REPLYZY_BACKEND "http://localhost:7200/";
     modelNames := ["gpt-5"; "gpt-5-mini"];
     createdAt := Date_now |}.

Definition defaultModel : ModelConfig :=
  {| provider := "replyzy";
     modelName := "gpt-5-mini";
     parameters := [("temperature", 1 # 10); ("topP", 1 # 10)]%Q;
     reasoningEffort := "medium" |}.

(** The store calls of a complete setup, in their order. *)
Definition setup_calls : list StoreCall :=
  [GetAllProviders;
   SetProvider "replyzy" replyzyProvider;
   SetAgentModel Planner defaultModel;
   SetAgentModel Navigator defaultModel].

(** The log lines of a complete setup, and the line of a failed one. *)
Definition setup_lines : list LogEntry :=
  [{| level := log_info;
      args := ["Setting up default Replyzy provider with backend URL:";
               baseUrl replyzyProvider] |};
   {| level := log_info; args := ["Created default Replyzy provider"] |};
   {| level := log_info; args := ["Configured default Planner model with gpt-5-mini"] |};
   {| level := log_info; args := ["Configured default Navigator model with gpt-5-mini"] |};
   {| level := log_info; args := ["Default configuration setup completed successfully"] |}].

Definition failed_line (e : JsThrown) : LogEntry :=
  {| level := log_error; args := ["Failed to create default configuration:"; String_ e] |}.

End Setup.
End Setup.

(** A storage without quota: every write is accepted. *)
Module ReliableStore.
Import Initialization.

Definition store : StorageModule := {|
  Storage := gmap string ProviderConfig * list (AgentNameEnum * ModelConfig);
  getAllProviders s := (inr (fst s), s);
  setProvider providerId config s := (inr tt, (<[providerId := config]> (fst s), snd s));
  setAgentModel agent config s := (inr tt, (fst s, (agent, config) :: snd s))
|}.

Definition empty : World (H := store) :=
  {| storage := (∅, []) : @Storage store; calls := []; log_lines := [] |}.

End ReliableStore.

(** * Properties *)

(** ** The output schema *)

Section Schema.

Lemma is_upper_lower_ascii (c : ascii) :
  is_upper c = true -> nat_of_ascii (Js.lower_ascii c) = (nat_of_ascii c + 32)%nat.
Proof.
  unfold is_upper, Js.lower_ascii. intros Hc. cbv zeta. rewrite Hc.
  apply andb_true_iff in Hc as [Hlo Hhi].
  apply Nat.leb_le in Hlo, Hhi.
  apply nat_ascii_embedding. lia.
Qed.

Lemma lower_ascii_fixed (l : ascii) : Js.lower_ascii l = l -> is_upper l = false.
Proof.
  intros Hl. destruct (is_upper l) eqn:Hu; [| reflexivity].
  apply is_upper_lower_ascii in Hu. rewrite Hl in Hu. lia.
Qed.

Lemma not_upper_lower_ascii (c : ascii) : is_upper c = false -> Js.lower_ascii c = c.
Proof. unfold is_upper, Js.lower_ascii. cbv zeta. intros ->. reflexivity. Qed.

(** On one character, the test of the code and the wording of the document
    agree when the literal is in lower case. *)
Lemma lower_ascii_same_letter (c l : ascii) :
  is_upper l = false -> (Js.lower_ascii c = l <-> same_letter c l = true).
Proof.
  intros Hl. unfold same_letter, upper_of. rewrite Hl. cbn [andb]. rewrite orb_false_r.
  destruct (is_upper c) eqn:Hc; cbn [andb].
  - pose proof (is_upper_lower_ascii c Hc) as Hn. split.
    + intros <-. rewrite Hn, Nat.eqb_refl. apply orb_true_r.
    + intros [Heq | Heq]%orb_true_iff.
      * apply Ascii.eqb_eq in Heq. subst l. congruence.
      * apply Nat.eqb_eq in Heq. rewrite <- Hn in Heq.
        apply (f_equal ascii_of_nat) in Heq. now rewrite !ascii_nat_embedding in Heq.
  - rewrite (not_upper_lower_ascii c Hc), orb_false_r. symmetry. apply Ascii.eqb_eq.
Qed.

(** [val.toLowerCase() === lit] is equality up to case, for a literal that
    is its own lower case. *)
Lemma toLowerCase_equal_ignoring_case (s lit : string) :
  Js.toLowerCase lit = lit ->
  (Js.toLowerCase s = lit <-> equal_ignoring_case s lit = true).
Proof.
  revert lit. induction s as [| c s IH]; intros [| l lit] Hlit; cbn.
  - tauto.
  - split; discriminate.
  - split; discriminate.
  - cbn in Hlit. injection Hlit as Hl Hlit.
    rewrite andb_true_iff, <- (IH lit Hlit),
      <- (lower_ascii_same_letter c l (lower_ascii_fixed l Hl)).
    split; [intros [= -> ->] | intros [-> ->]]; auto.
Qed.

Lemma eqb_toLowerCase (s lit : string) :
  Js.toLowerCase lit = lit ->
  String.eqb (Js.toLowerCase s) lit = equal_ignoring_case s lit.
Proof.
  intros Hlit. apply eq_true_iff_eq. rewrite String.eqb_eq.
  now apply toLowerCase_equal_ignoring_case.
Qed.

(** The callback of the transform, in the words of the document. *)
Lemma boolean_of_string_spec (val : string) :
  boolean_of_string val =
    if equal_ignoring_case val "true" then Valid true
    else if equal_ignoring_case val "false" then Valid false
    else Threw "Invalid boolean string".
Proof.
  unfold boolean_of_string.
  now rewrite !eqb_toLowerCase by reflexivity.
Qed.

Lemma boolean_or_string_like (path : string) (v : json) (b : bool) :
  boolean_like v b -> boolean_or_string path (Some v) = Valid b.
Proof.
  intros [-> | (s & -> & Hs)]; [reflexivity |].
  cbn. rewrite boolean_of_string_spec.
  destruct b; [now rewrite Hs |].
  destruct (equal_ignoring_case s "true") eqn:Ht; [| now rewrite Hs].
  apply toLowerCase_equal_ignoring_case in Ht, Hs; try reflexivity. congruence.
Qed.

Lemma boolean_or_string_not (path : string) (v : option json) :
  not_a_boolean v -> boolean_or_string path v = Threw "Invalid boolean string".
Proof.
  intros (s & -> & Ht & Hf). cbn. now rewrite boolean_of_string_spec, Ht, Hf.
Qed.

Lemma string_never_throws (path : string) (v : option json) (m : string) :
  string_ path v <> Threw m.
Proof. destruct v as [[]|]; discriminate. Qed.

End Schema.

(** A [z.string()] key gives a value or issues, never an exception. *)
Ltac case_string_key path members :=
  let H := fresh "Hnt" in
  pose proof (string_never_throws path (get_member path members)) as H;
  destruct (string_ path (get_member path members)); [| | exfalso; exact (H _ eq_refl)];
  clear H.

(** C5. The schema accepts a boolean field ([done], [web_task]) given as a
    literal boolean or as a string equal to "true" or "false" up to case,
    and coerces the string to that boolean; text fields accept every
    string, the empty one included.  Any other string in a boolean field
    makes [parse] fail, with the error of the transform. *)
Theorem schema_boolean_coercion :
  (forall (members : list (string * json)) (o c n f r : string) (d w : json)
          (bd bw : bool),
      get_member "observation" members = Some (JString o) ->
      get_member "challenges" members = Some (JString c) ->
      get_member "next_steps" members = Some (JString n) ->
      get_member "final_answer" members = Some (JString f) ->
      get_member "reasoning" members = Some (JString r) ->
      get_member "done" members = Some d -> boolean_like d bd ->
      get_member "web_task" members = Some w -> boolean_like w bw ->
      plannerOutputSchema_parse (JObject members)
      = inr {| observation := o; challenges := c; done := bd; next_steps := n;
               final_answer := f; reasoning := r; web_task := bw |})
  /\
  (forall members : list (string * json),
      not_a_boolean (get_member "done" members) \/
      not_a_boolean (get_member "web_task" members) ->
      plannerOutputSchema_parse (JObject members)
      = inl (TransformError "Invalid boolean string")).
Proof.
  split.
  - intros members o c n f r d w bd bw Ho Hc Hn Hf Hr Hd Hbd Hw Hbw.
    unfold plannerOutputSchema_parse, plannerOutputSchema.
    rewrite Ho, Hc, Hn, Hf, Hr, Hd, Hw.
    rewrite (boolean_or_string_like "done" d bd Hbd).
    rewrite (boolean_or_string_like "web_task" w bw Hbw).
    reflexivity.
  - intros members Hbad.
    unfold plannerOutputSchema_parse, plannerOutputSchema.
    case_string_key "observation" members;
      case_string_key "challenges" members;
      case_string_key "next_steps" members;
      case_string_key "final_answer" members;
      case_string_key "reasoning" members;
      (destruct Hbad as [Hbad | Hbad];
       [ rewrite (boolean_or_string_not "done" _ Hbad); reflexivity
       | rewrite (boolean_or_string_not "web_task" _ Hbad);
         destruct (boolean_or_string "done" (get_member "done" members)) eqn:Hd;
         try reflexivity;
         destruct (get_member "done" members) as [[]|]; cbn in Hd; try discriminate;
         rewrite boolean_of_string_spec in Hd;
         repeat match type of Hd with
                | context [if ?b then _ else _] => destruct b
                end; first [discriminate | injection Hd as <-; reflexivity] ]).
Qed.

(** The inputs of the document: "TRUE" and "false" in the boolean fields,
    an empty text field. *)
Lemma schema_boolean_coercion_witness :
  plannerOutputSchema_parse
    (raw_output (JString "o") (JString "") (JString "TRUE") (JString "n")
                (JString "FINAL") (JString "r") (JString "false"))
  = inr {| observation := "o"; challenges := ""; done := true; next_steps := "n";
           final_answer := "FINAL"; reasoning := "r"; web_task := false |}
  /\ plannerOutputSchema_parse
       (JObject [("observation", JNull); ("done", JBool true); ("web_task", JString "yes")])
     = inl (TransformError "Invalid boolean string").
Proof.
  split.
  - apply (proj1 schema_boolean_coercion _ "o" "" "n" "FINAL" "r"
             (JString "TRUE") (JString "false") true false);
      try reflexivity; right; eexists; split; reflexivity.
  - apply (proj2 schema_boolean_coercion).
    right. exists "yes". repeat split; reflexivity.
Defined.

(** ** The planning step *)

Section PlannerProperties.
Context `{ErrorsModule} `{MessagesUtils} `{Runtime}.

Import Async.

Lemma string_app_cons (x : ascii) (a b : string) : String x a ++ b = String x (a ++ b).
Proof. reflexivity. Qed.

Lemma string_app_assoc (a b c : string) : (a ++ b) ++ c = a ++ (b ++ c).
Proof.
  induction a as [| x a IH]; [reflexivity |].
  now rewrite !string_app_cons, IH.
Qed.

Lemma string_app_empty_r (a : string) : a ++ "" = a.
Proof.
  induction a as [| x a IH]; [reflexivity |].
  now rewrite string_app_cons, IH.
Qed.

Lemma concat_empty_cons (x : string) (xs : list string) :
  String.concat "" (x :: xs) = x ++ String.concat "" xs.
Proof.
  destruct xs as [| y ys]; [| reflexivity].
  cbn [String.concat]. symmetry. apply string_app_empty_r.
Qed.

(** The loop of the code computes the text segments of the document. *)
Lemma fold_left_append_text (parts : list ContentPart) (acc : string) :
  fold_left append_text parts acc = acc ++ text_segments parts.
Proof.
  revert acc. induction parts as [| p parts IH]; intros acc; cbn.
  - now rewrite string_app_empty_r.
  - rewrite IH. unfold text_segments. destruct p; cbn [append_text omap text_of_part];
      cbn -[String.concat String.append]; try reflexivity.
    now rewrite concat_empty_cons, string_app_assoc.
Qed.

Lemma replace_last_message_run (init : list BaseMessage) (m : BaseMessage) (t : Trace) :
  replace_last_message (init ++ [m]) t = (inr (init ++ [without_images m])%list, t).
Proof.
  unfold replace_last_message.
  replace (length (init ++ [m]) - 1)%nat with (length init + 0)%nat
    by (rewrite length_app; cbn; lia).
  rewrite lookup_app_r, Nat.add_comm, Nat.add_sub by lia. cbn [lookup list_lookup].
  rewrite Nat.add_0_l.
  replace (length init) with (length init + 0)%nat at 1 by lia.
  rewrite insert_app_r. cbn. unfold Eff.resolve, without_images. do 4 f_equal.
  destruct (content m); [reflexivity |].
  now rewrite fold_left_append_text.
Qed.

(** The sequence before the vision rule: the system prompt of the agent,
    then the history without its first entry.  It is never empty. *)
Lemma planner_messages_last (this : PlannerAgent) :
  exists init m,
    getSystemMessage :: drop 1 (getMessages (context this)) = (init ++ [m])%list.
Proof.
  destruct (exists_last (l := getSystemMessage :: drop 1 (getMessages (context this))))
    as (init & m & ->); [discriminate | eauto].
Qed.

(** Assembling the messages always succeeds and leaves no trace. *)
Lemma assemble_messages_run (this : PlannerAgent) (t : Trace) :
  exists init m,
    getSystemMessage :: drop 1 (getMessages (context this)) = (init ++ [m])%list /\
    assemble_messages this t =
      (inr (if negb (useVisionForPlanner (options (context this)))
               && useVision (options (context this))
            then init ++ [without_images m] else init ++ [m])%list, t).
Proof.
  destruct (planner_messages_last this) as (init & m & Hlast).
  exists init, m. split; [assumption |].
  unfold assemble_messages. rewrite Hlast.
  destruct (negb _ && _); [apply replace_last_message_run | reflexivity].
Qed.

Lemma assemble_messages_planning_input (this : PlannerAgent) (t : Trace) :
  assemble_messages this t = (inr (planning_input this), t).
Proof.
  unfold planning_input.
  destruct (assemble_messages_run this no_trace) as (init & m & Hlast & ->).
  destruct (assemble_messages_run this t) as (init' & m' & Hlast' & ->).
  rewrite Hlast in Hlast'. apply app_inj_tail in Hlast' as [<- <-]. reflexivity.
Qed.

(** Either the remote call fails in one of the listed ways, or it is
    answered with a plan that the schema accepts. *)
Lemma remote_failure_or_plan (f : JsThrown + Response) :
  RemoteFailure f \/
  exists r serverPlan planOutput,
    f = inr r /\ ok r = true /\ body r = inr serverPlan /\
    plannerOutputSchema_parse serverPlan = inr planOutput.
Proof.
  destruct f as [e | r]; [left; constructor |].
  destruct (ok r) eqn:Hok; [| left; now constructor].
  destruct (body r) as [e | serverPlan] eqn:Hbody; [left; econstructor 3; eauto |].
  destruct (plannerOutputSchema_parse serverPlan) as [f | planOutput] eqn:Hparse.
  - left. econstructor 4; eauto.
  - right. eauto 10.
Qed.

Lemma uses_server_plan_endpoint (this : PlannerAgent) :
  uses_server_plan this = true ->
  Js.truthy_string (config_serverPlanEndpoint this) = true.
Proof. unfold uses_server_plan. now intros [_ ?]%andb_true_iff. Qed.

Lemma executeWithServerPlan_fails (this : PlannerAgent) (t : Trace) :
  Js.truthy_string (config_serverPlanEndpoint this) = true ->
  RemoteFailure (fetch (server_url this)) ->
  exists e,
    executeWithServerPlan this t =
      (inl e, add_request (FetchGet (server_url this))
                (add_log {| level := log_info;
                            args := ["Fetching plan from server: " ++ server_url this] |} t)).
Proof.
  intros Hend Hfail. unfold executeWithServerPlan. rewrite Hend. cbn [negb].
  fold (server_url this).
  unfold Eff.await, logger_info, log, request, Eff.of_sum, Eff.throw, Eff.resolve.
  inversion Hfail as [e He | r Hok Hr | r e Hok Hbody Hr | r plan f Hok Hbody Hparse Hr];
    cbn.
  - eauto.
  - rewrite Hok. cbn. eauto.
  - rewrite Hok, Hbody. cbn. eauto.
  - rewrite Hok, Hbody. cbn. rewrite Hparse. eauto.
Qed.

Lemma get_model_output_fallback (this : PlannerAgent) (msgs : list BaseMessage) (t : Trace) :
  uses_server_plan this = true ->
  RemoteFailure (fetch (server_url this)) ->
  exists e, get_model_output this msgs t = (invoke_outcome msgs, fallback this e msgs t).
Proof.
  intros Huses Hfail. unfold get_model_output. rewrite Huses.
  pose proof (uses_server_plan_endpoint this Huses) as Hend.
  unfold Eff.await at 1. unfold logger_info at 1. unfold log at 1.
  unfold Eff.try_catch, Eff.await at 1.
  destruct (executeWithServerPlan_fails this
              (add_log {| level := log_info;
                          args := ["Using server-based planning for first call"] |} t)
              Hend Hfail) as (e & ->).
  exists e. unfold fallback, server_attempt, invoke, Eff.await, logger_error, logger_info,
    log, request, Eff.of_sum, Eff.resolve, Eff.throw.
  destruct (invoke_outcome msgs); reflexivity.
Qed.

Lemma get_model_output_direct (this : PlannerAgent) (msgs : list BaseMessage) (t : Trace) :
  uses_server_plan this = false ->
  get_model_output this msgs t = (invoke_outcome msgs, add_request (LlmInvoke msgs) t).
Proof.
  intros Huses. unfold get_model_output. rewrite Huses.
  unfold invoke, Eff.await, request, Eff.of_sum, Eff.resolve, Eff.throw.
  destruct (invoke_outcome msgs); reflexivity.
Qed.

(** Obtaining the model output emits no event. *)
Lemma get_model_output_events (this : PlannerAgent) (msgs : list BaseMessage) (t : Trace) :
  events (snd (get_model_output this msgs t)) = events t.
Proof.
  destruct (uses_server_plan this) eqn:Huses.
  - destruct (remote_failure_or_plan (fetch (server_url this)))
      as [Hfail | (r & plan & out & Hf & Hok & Hbody & Hparse)].
    + destruct (get_model_output_fallback this msgs t Huses Hfail) as (e & ->).
      reflexivity.
    + unfold get_model_output. rewrite Huses.
      unfold executeWithServerPlan.
      rewrite (uses_server_plan_endpoint this Huses). cbn [negb].
      fold (server_url this).
      unfold Eff.try_catch, Eff.await, logger_info, log, request, Eff.of_sum, Eff.throw,
        Eff.resolve.
      rewrite Hf. cbn. rewrite Hok, Hbody. cbn. rewrite Hparse. reflexivity.
  - now rewrite get_model_output_direct.
Qed.

(** One step of [execute], by the outcome of obtaining the model output. *)
Lemma execute_run (this : PlannerAgent) (t : Trace) :
  execute this t =
    match get_model_output this (planning_input this) (add_event step_start t) with
    | (inr (Some modelOutput), t') =>
        (inr {| output_id := id this; result := Some (clean modelOutput); error := None |},
         add_log {| level := log_info;
                    args := ["Planner output"; JSON_stringify (clean modelOutput)] |}
           (add_event (step_ok modelOutput) t'))
    | (inr None, t') =>
        execute_catch this (JsError "Error" "Failed to validate planner output") t'
    | (inl e, t') => execute_catch this e t'
    end.
Proof.
  unfold execute, execute_try, Eff.try_catch.
  unfold Eff.await at 1. unfold emitEvent at 1. unfold emit at 1.
  fold step_start.
  unfold Eff.await at 1. rewrite assemble_messages_planning_input.
  unfold Eff.await at 1.
  destruct (get_model_output this (planning_input this) (add_event step_start t))
    as [[e | [modelOutput |]] t']; reflexivity.
Qed.

(** The [catch] block, by the class of the error. *)
Lemma execute_catch_run (this : PlannerAgent) (e : JsThrown) (t : Trace) :
  execute_catch this e t =
    match classify e with
    | Authentication => (inl (ChatModelAuthError (errorMessage e) e), t)
    | BadRequest => (inl (ChatModelBadRequestError (errorMessage e) e), t)
    | Cancelled => (inl (RequestCancelledError (errorMessage e)), t)
    | Forbidden => (inl (ChatModelForbiddenError LLM_FORBIDDEN_ERROR_MESSAGE e), t)
    | Unclassified =>
        (inr {| output_id := id this; result := None; error := Some (errorMessage e) |},
         add_event (step_fail e) (add_log (planning_failed_line e) t))
    end.
Proof.
  unfold execute_catch, classify, first_match.
  destruct (isAuthenticationError e); [reflexivity |].
  destruct (isBadRequestError e); [reflexivity |].
  destruct (isAbortedError e); [reflexivity |].
  destruct (isForbiddenError e); reflexivity.
Qed.

(** What the [catch] block does to the trace: one step-fail event and one
    error line for an unclassified error, nothing otherwise. *)
Lemma execute_catch_trace (this : PlannerAgent) (e : JsThrown) (t : Trace) :
  let '(r, t') := execute_catch this e t in
  requests t' = requests t /\
  match r with
  | inl e' => is_typed_error e' = true /\ events t' = events t /\ logs t' = logs t
  | inr out =>
      classify e = Unclassified /\
      result out = None /\ error out = Some (errorMessage e) /\
      events t' = (events t ++ [step_fail e])%list /\
      logs t' = (logs t ++ [planning_failed_line e])%list
  end.
Proof.
  rewrite execute_catch_run. destruct (classify e); cbn; auto 10.
Qed.

Lemma execute_try_run (this : PlannerAgent) (t : Trace) :
  execute_try this t =
    match get_model_output this (planning_input this) (add_event step_start t) with
    | (inr (Some modelOutput), t') =>
        (inr {| output_id := id this; result := Some (clean modelOutput); error := None |},
         add_log {| level := log_info;
                    args := ["Planner output"; JSON_stringify (clean modelOutput)] |}
           (add_event (step_ok modelOutput) t'))
    | (inr None, t') => (inl (JsError "Error" "Failed to validate planner output"), t')
    | (inl e, t') => (inl e, t')
    end.
Proof.
  unfold execute_try.
  unfold Eff.await at 1. unfold emitEvent at 1. unfold emit at 1.
  fold step_start.
  unfold Eff.await at 1. rewrite assemble_messages_planning_input.
  unfold Eff.await at 1.
  destruct (get_model_output this (planning_input this) (add_event step_start t))
    as [[e | [modelOutput |]] t']; reflexivity.
Qed.

(** C2. An error that escapes the step body is classified by testing, in
    this order, authentication, bad request, cancelled, forbidden; the
    first test that matches decides the failure that the caller sees, and
    an error that matches none is the unclassified failure. *)
Theorem error_classification_priority (this : PlannerAgent) (t t1 : Trace) (e : JsThrown) :
  execute_try this t = (inl e, t1) ->
  propagated_kind (fst (execute this t)) = Some (classify e) /\
  classify e =
    if isAuthenticationError e then Authentication
    else if isBadRequestError e then BadRequest
    else if isAbortedError e then Cancelled
    else if isForbiddenError e then Forbidden
    else Unclassified.
Proof.
  intros Htry. split; [| reflexivity].
  unfold execute, Eff.try_catch. rewrite Htry, execute_catch_run.
  destruct (classify e); reflexivity.
Qed.

(** C6. A step whose model output is validated emits, after its
    step-start event, exactly one further event: a step-ok event whose
    message is the sanitized [final_answer] when [done] is true and the
    sanitized [next_steps] when it is false. *)
Theorem step_ok_event_message (this : PlannerAgent) (modelOutput : PlannerOutput)
    (t' : Trace) :
  get_model_output this (planning_input this) (add_event step_start no_trace)
    = (inr (Some modelOutput), t') ->
  events (snd (run (execute this))) =
    [step_start;
     {| actor := PLANNER; state := STEP_OK;
        data := if done modelOutput
                then filterExternalContent (final_answer modelOutput)
                else filterExternalContent (next_steps modelOutput) |}]
  /\ count_state STEP_OK (snd (run (execute this))) = 1%nat.
Proof.
  intros Hout. unfold run. rewrite execute_run, Hout.
  pose proof (get_model_output_events this (planning_input this)
                (add_event step_start no_trace)) as Hev.
  rewrite Hout in Hev. cbn in Hev.
  unfold count_state. cbn [snd add_log add_event events].
  rewrite Hev. split; reflexivity.
Qed.

(** C7. An outcome that [execute] returns has exactly one of [result] and
    [error] set. *)
Theorem step_outcome_exclusive (this : PlannerAgent) (t t' : Trace) (out : AgentOutput) :
  execute this t = (inr out, t') ->
  (is_Some (result out) /\ error out = None) \/
  (result out = None /\ is_Some (error out)).
Proof.
  rewrite execute_run.
  destruct (get_model_output this (planning_input this) (add_event step_start t))
    as [[e | [modelOutput |]] t2].
  - intros Hc. pose proof (execute_catch_trace this e t2) as Ht. rewrite Hc in Ht.
    destruct Ht as (_ & _ & -> & -> & _). right. eauto.
  - intros [= <- _]. left. cbn. eauto.
  - intros Hc.
    pose proof (execute_catch_trace this
                  (JsError "Error" "Failed to validate planner output") t2) as Ht.
    rewrite Hc in Ht. destruct Ht as (_ & _ & -> & -> & _). right. eauto.
Qed.

(** C9. The result that [execute] returns for a validated output differs
    from it only in the five text fields, each of which is the sanitized
    field of the output; [done] and [web_task] are those of the output. *)
Theorem cleaned_result_frame (this : PlannerAgent) (t t' : Trace)
    (modelOutput : PlannerOutput) :
  get_model_output this (planning_input this) (add_event step_start t)
    = (inr (Some modelOutput), t') ->
  exists out cleanedPlan,
    fst (execute this t) = inr out /\ result out = Some cleanedPlan /\
    done cleanedPlan = done modelOutput /\
    web_task cleanedPlan = web_task modelOutput /\
    observation cleanedPlan = filterExternalContent (observation modelOutput) /\
    challenges cleanedPlan = filterExternalContent (challenges modelOutput) /\
    reasoning cleanedPlan = filterExternalContent (reasoning modelOutput) /\
    final_answer cleanedPlan = filterExternalContent (final_answer modelOutput) /\
    next_steps cleanedPlan = filterExternalContent (next_steps modelOutput).
Proof.
  intros Hout. rewrite execute_run, Hout.
  eexists _, (clean modelOutput). cbn. repeat split; reflexivity.
Qed.

Lemma uses_server_plan_intro (this : PlannerAgent) :
  nSteps (context this) = 0%nat ->
  config_useServerForFirstPlan this = Some true ->
  Js.truthy_string (config_serverPlanEndpoint this) = true ->
  uses_server_plan this = true.
Proof. unfold uses_server_plan. now intros -> -> ->. Qed.

(** C1, as the code has it.  At step 0, with [useServerForFirstPlan] set
    and an endpoint configured, a remote planning call that fails (network
    error, status outside 2xx, unreadable or schema-invalid body) is
    followed in the same step by one call of the chat model and by no
    second remote request; the step emits exactly one step-start event;
    it emits exactly one terminal event (step-ok or step-fail) when
    [execute] returns an outcome, and no terminal event when the error of
    the fallback is rethrown as one of the four typed errors. *)
Theorem server_failure_falls_back (this : PlannerAgent) :
  nSteps (context this) = 0%nat ->
  config_useServerForFirstPlan this = Some true ->
  Js.truthy_string (config_serverPlanEndpoint this) = true ->
  RemoteFailure (fetch (server_url this)) ->
  let '(r, tr) := run (execute this) in
  requests tr = [FetchGet (server_url this); LlmInvoke (planning_input this)] /\
  count_state STEP_START tr = 1%nat /\
  match r with
  | inr _ => count_terminal tr = 1%nat
  | inl e => is_typed_error e = true /\ count_terminal tr = 0%nat
  end.
Proof.
  intros Hstep Hflag Hend Hfail.
  pose proof (uses_server_plan_intro this Hstep Hflag Hend) as Huses.
  unfold run. rewrite execute_run.
  destruct (get_model_output_fallback this (planning_input this)
              (add_event step_start no_trace) Huses Hfail) as (e0 & ->).
  set (t2 := fallback this e0 (planning_input this) (add_event step_start no_trace)).
  assert (Hreq : requests t2 = [FetchGet (server_url this); LlmInvoke (planning_input this)])
    by reflexivity.
  assert (Hev : events t2 = [step_start]) by reflexivity.
  clearbody t2.
  assert (Hcatch : forall e,
    let '(r, tr) := execute_catch this e t2 in
    requests tr = [FetchGet (server_url this); LlmInvoke (planning_input this)] /\
    count_state STEP_START tr = 1%nat /\
    match r with
    | inr _ => count_terminal tr = 1%nat
    | inl e => is_typed_error e = true /\ count_terminal tr = 0%nat
    end).
  { intros e. pose proof (execute_catch_trace this e t2) as Ht.
    destruct (execute_catch this e t2) as [[e' | out] tr];
      unfold count_terminal, count_state.
    - destruct Ht as (-> & Hty & -> & _). rewrite Hev. auto.
    - destruct Ht as (-> & _ & _ & _ & -> & _). rewrite Hev. auto. }
  destruct (invoke_outcome (planning_input this)) as [e | [modelOutput |]].
  - apply Hcatch.
  - unfold count_terminal, count_state. cbn [add_log add_event events requests].
    rewrite Hev. auto.
  - apply Hcatch.
Qed.

Lemma remote_failure_error (f : JsThrown + Response) :
  RemoteFailure f -> exists e0, remote_error f = Some e0.
Proof.
  intros [e | r Hok | r e Hok Hbody | r plan failure Hok Hbody Hparse]; cbn;
    rewrite ?Hok, ?Hbody, ?Hparse; eauto.
Qed.

Lemma remote_error_failure (f : JsThrown + Response) (e0 : JsThrown) :
  remote_error f = Some e0 -> RemoteFailure f.
Proof.
  destruct (remote_failure_or_plan f)
    as [Hfail | (r & plan & out & -> & Hok & Hbody & Hparse)]; [auto |].
  cbn. rewrite Hok, Hbody, Hparse. discriminate.
Qed.

(** A failed remote call rejects with its error, after one request. *)
Lemma executeWithServerPlan_fails_with (this : PlannerAgent) (t : Trace) (e0 : JsThrown) :
  Js.truthy_string (config_serverPlanEndpoint this) = true ->
  remote_error (fetch (server_url this)) = Some e0 ->
  executeWithServerPlan this t =
    (inl e0, add_request (FetchGet (server_url this))
               (add_log {| level := log_info;
                           args := ["Fetching plan from server: " ++ server_url this] |} t)).
Proof.
  intros Hend Herr. unfold executeWithServerPlan. rewrite Hend. cbn [negb].
  fold (server_url this).
  unfold Eff.await, logger_info, log, request, Eff.of_sum, Eff.throw, Eff.resolve.
  unfold remote_error in Herr.
  destruct (fetch (server_url this)) as [e | r]; cbn.
  - now injection Herr as ->.
  - destruct (ok r); cbn; [| now injection Herr as ->].
    destruct (body r) as [e | plan]; cbn; [now injection Herr as -> |].
    destruct (plannerOutputSchema_parse plan) as [failure | out]; [| discriminate].
    now injection Herr as ->.
Qed.

Lemma get_model_output_fallback_with (this : PlannerAgent) (msgs : list BaseMessage)
    (t : Trace) (e0 : JsThrown) :
  uses_server_plan this = true ->
  remote_error (fetch (server_url this)) = Some e0 ->
  get_model_output this msgs t = (invoke_outcome msgs, fallback this e0 msgs t).
Proof.
  intros Huses Herr. unfold get_model_output. rewrite Huses.
  unfold Eff.await at 1. unfold logger_info at 1. unfold log at 1.
  unfold Eff.try_catch, Eff.await at 1.
  rewrite (executeWithServerPlan_fails_with this _ e0
             (uses_server_plan_endpoint this Huses) Herr).
  unfold fallback, server_attempt, invoke, Eff.await, logger_error, logger_info,
    log, request, Eff.of_sum, Eff.resolve, Eff.throw.
  destruct (invoke_outcome msgs); reflexivity.
Qed.

(** No line of a failed remote call is a "Planning failed" line. *)
Lemma attempt_lines_not_planning_failed (this : PlannerAgent) (e0 e' : JsThrown) :
  ~ In (planning_failed_line e') (attempt_lines this e0).
Proof.
  unfold attempt_lines, planning_failed_line. cbn [In].
  intros [Hl | [Hl | [Hl | [Hl | []]]]]; discriminate Hl.
Qed.

(** C3, as the code has it.  First part: when the call of the chat model,
    made directly or as the fallback of a failed remote call, fails with
    an abort error that the authentication and bad-request tests do not
    match, [execute] rejects with [RequestCancelledError], the only event
    of the step is step-start, and the log holds no "Planning failed"
    line: it is empty for a direct call and holds the four lines of the
    failed remote call for a fallback, of which one is at error level.
    Second part: a remote call that fails, by an abort as by anything
    else, does not end the step; it leaves the four lines, among them
    "Server planning failed: <error>" at error level, and the step then
    goes on as the step of the same agent without server configuration
    does: the outcome of the call of the chat model decides its result,
    its events and the rest of its log. *)
Theorem aborted_llm_call_is_cancelled (this : PlannerAgent) :
  (forall e : JsThrown,
      (uses_server_plan this = true -> RemoteFailure (fetch (server_url this))) ->
      invoke_outcome (planning_input this) = inl e ->
      isAbortedError e = true ->
      isAuthenticationError e = false ->
      isBadRequestError e = false ->
      let '(r, tr) := run (execute this) in
      r = inl (RequestCancelledError (errorMessage e)) /\
      events tr = [step_start] /\
      count_state STEP_FAIL tr = 0%nat /\
      count_level log_error tr = (if uses_server_plan this then 1%nat else 0%nat) /\
      logs tr = (if uses_server_plan this
                 then match remote_error (fetch (server_url this)) with
                      | Some e0 => attempt_lines this e0
                      | None => []
                      end
                 else []) /\
      (forall e', ~ In (planning_failed_line e') (logs tr)))
  /\
  (forall e0 : JsThrown,
      uses_server_plan this = true ->
      remote_error (fetch (server_url this)) = Some e0 ->
      let '(r, tr) := run (execute this) in
      let '(r', tr') := run (execute (without_config this)) in
      r = r' /\
      events tr = events tr' /\
      requests tr = FetchGet (server_url this) :: requests tr' /\
      logs tr = (attempt_lines this e0 ++ logs tr')%list).
Proof.
  split.
  - intros e Hremote Hllm Habort Hauth Hbad.
    assert (Hclass : classify e = Cancelled).
    { unfold classify, first_match. now rewrite Hauth, Hbad, Habort. }
    unfold run. rewrite execute_run.
    destruct (uses_server_plan this) eqn:Huses.
    + destruct (remote_failure_error _ (Hremote eq_refl)) as (e0 & Herr).
      rewrite (get_model_output_fallback_with this _ _ e0 Huses Herr).
      rewrite Hllm, execute_catch_run, Hclass, Herr.
      repeat split; try reflexivity.
      intros e'. apply attempt_lines_not_planning_failed.
    + rewrite (get_model_output_direct this _ _ Huses), Hllm, execute_catch_run, Hclass.
      repeat split; try reflexivity. intros e' [].
  - intros e0 Huses Herr. unfold run. rewrite !execute_run.
    change (planning_input (without_config this)) with (planning_input this).
    assert (Hdirect : uses_server_plan (without_config this) = false).
    { unfold uses_server_plan. cbn. now rewrite andb_false_r. }
    rewrite (get_model_output_direct (without_config this) _ _ Hdirect).
    rewrite (get_model_output_fallback_with this _ _ e0 Huses Herr).
    assert (Hcatch : forall e,
      let '(r, tr) :=
        execute_catch this e
          (fallback this e0 (planning_input this) (add_event step_start no_trace)) in
      let '(r', tr') :=
        execute_catch (without_config this) e
          (add_request (LlmInvoke (planning_input this)) (add_event step_start no_trace)) in
      r = r' /\ events tr = events tr' /\
      requests tr = FetchGet (server_url this) :: requests tr' /\
      logs tr = (attempt_lines this e0 ++ logs tr')%list).
    { intros e. rewrite !execute_catch_run. destruct (classify e); repeat split. }
    destruct (invoke_outcome (planning_input this)) as [e | [modelOutput |]];
      [apply Hcatch | repeat split | apply Hcatch].
Qed.

(** C4, as the code has it.  With vision enabled globally and disabled for
    the planner, the messages before the final one are kept and the final
    message is replaced by a human message: one that holds the text
    segments of the final message, concatenated in their order, when its
    content is segmented, and its content unchanged when it is not. *)
Theorem vision_rule_final_message (this : PlannerAgent) (t : Trace) :
  useVision (options (context this)) = true ->
  useVisionForPlanner (options (context this)) = false ->
  exists init m,
    getSystemMessage :: drop 1 (getMessages (context this)) = (init ++ [m])%list /\
    assemble_messages this t =
      (inr (init ++ [{| getType := human;
                        content := StringContent
                                     match content m with
                                     | ArrayContent parts => text_segments parts
                                     | StringContent s => s
                                     end |}])%list, t).
Proof.
  intros Hv Hp.
  destruct (assemble_messages_run this t) as (init & m & Hlast & Hrun).
  rewrite Hv, Hp in Hrun. exists init, m. split; [assumption | exact Hrun].
Qed.

End PlannerProperties.

(** ** The planning step on concrete inputs *)

Section PlannerExamples.
Import Sample Async.

#[local] Existing Instance errors_by_name.
#[local] Existing Instance no_filter.

(** Step 0 of an agent configured for server-first planning; the server
    answers HTTP 500 and the chat model answers with a finished plan. *)
Lemma server_failure_falls_back_witness :
  let '(r, tr) :=
    run (execute (H1 := runtime (inr http_500) (inr (Some (plan true))))
           (agent 0 true false history (Some server_first))) in
  requests tr =
    [FetchGet "https://x/planner/ReplyMessage/Facebook";
     LlmInvoke [system_prompt; HumanMessage "Reply to the new messages";
                HumanMessage "Current tab: inbox"]] /\
  count_state STEP_START tr = 1%nat /\
  match r with
  | inr _ => count_terminal tr = 1%nat
  | inl e => is_typed_error e = true /\ count_terminal tr = 0%nat
  end.
Proof.
  apply (server_failure_falls_back (H1 := runtime (inr http_500) (inr (Some (plan true))))
           (agent 0 true false history (Some server_first)));
    [reflexivity | reflexivity | reflexivity |].
  apply non_2xx_status. reflexivity.
Defined.

(** The same step when the chat model rejects with an authentication
    error: the remote call failed, the step fell back, and it ends with one
    step-start event and no terminal event at all. *)
Lemma server_failure_without_terminal_event :
  let this := agent 0 true false history (Some server_first) in
  let R := runtime (inr http_500) (inl auth_error) in
  let '(r, tr) := run (execute (H1 := R) this) in
  nSteps (context this) = 0%nat /\
  config_useServerForFirstPlan this = Some true /\
  config_serverPlanEndpoint this = Some "https://x/" /\
  RemoteFailure (fetch (Runtime := R) (server_url this)) /\
  r = inl (ChatModelAuthError "401 invalid api key" auth_error) /\
  events tr = [step_start] /\
  count_terminal tr = 0%nat /\
  count_terminal tr <> 1%nat.
Proof.
  cbv zeta. vm_compute run.
  repeat split; try reflexivity; try discriminate.
  apply non_2xx_status. reflexivity.
Defined.

(** An abort error that also carries a 401 text is an authentication
    failure: the authentication test comes first. *)
Lemma error_classification_priority_witness :
  let this := agent 1 true true history None in
  let R := runtime (inl abort_error) (inl abort_401) in
  propagated_kind (fst (execute (H := errors_by_text) (H1 := R) this no_trace))
    = Some Authentication /\
  isAbortedError (ErrorsModule := errors_by_text) abort_401 = true /\
  classify (H := errors_by_text) abort_401 = Authentication.
Proof.
  cbv zeta.
  pose proof (error_classification_priority (H := errors_by_text)
                (H1 := runtime (inl abort_error) (inl abort_401))
                (agent 1 true true history None) no_trace
                (add_request (LlmInvoke history) (add_event step_start no_trace))
                abort_401 eq_refl) as [Hkind Hclass].
  split; [exact Hkind | split; [reflexivity | exact Hclass]].
Defined.

(** Step 0, server first: the remote call is aborted.  Whether the chat
    model then aborts too or answers, the abort of the remote call is
    written to the log as an error and the chat model is called; when it
    answers, the step ends with a step-ok event and is not cancelled. *)
Lemma aborted_remote_call_is_logged :
  let this := agent 0 true false history (Some server_first) in
  let R1 := runtime (inl abort_error) (inl abort_error) in
  let R2 := runtime (inl abort_error) (inr (Some (plan false))) in
  isAbortedError abort_error = true /\
  fetch (Runtime := R1) (server_url this) = inl abort_error /\
  fst (run (execute (H1 := R1) this))
    = inl (RequestCancelledError "The operation was aborted.") /\
  logs (snd (run (execute (H1 := R1) this))) =
    [{| level := log_info; args := ["Using server-based planning for first call"] |};
     {| level := log_info;
        args := ["Fetching plan from server: https://x/planner/ReplyMessage/Facebook"] |};
     {| level := log_error;
        args := ["Server planning failed: AbortError: The operation was aborted."] |};
     {| level := log_info; args := ["Falling back to LLM-based planning"] |}] /\
  count_level log_error (snd (run (execute (H1 := R1) this))) <> 0%nat /\
  fst (run (execute (H1 := R2) this))
    = inr {| output_id := "planner"; result := Some (plan false); error := None |} /\
  events (snd (run (execute (H1 := R2) this)))
    = [step_start; {| actor := PLANNER; state := STEP_OK; data := "n" |}].
Proof.
  cbv zeta. vm_compute. repeat split; try reflexivity; discriminate.
Qed.

(** Step 0, server first.  First the server answers HTTP 500 and the
    fallback call of the chat model is aborted; then the remote call itself
    is aborted and the chat model answers. *)
Lemma aborted_llm_call_is_cancelled_witness :
  let this := agent 0 true false history (Some server_first) in
  (let R := runtime (inr http_500) (inl abort_error) in
   let '(r, tr) := run (execute (H1 := R) this) in
   r = inl (RequestCancelledError "The operation was aborted.") /\
   events tr = [step_start] /\
   count_state STEP_FAIL tr = 0%nat /\
   count_level log_error tr = 1%nat /\
   logs tr =
     [{| level := log_info; args := ["Using server-based planning for first call"] |};
      {| level := log_info;
         args := ["Fetching plan from server: https://x/planner/ReplyMessage/Facebook"] |};
      {| level := log_error;
         args := ["Server planning failed: Error: Server returned 500: Internal Server Error"] |};
      {| level := log_info; args := ["Falling back to LLM-based planning"] |}] /\
   (forall e', ~ In (planning_failed_line e') (logs tr)))
  /\
  (let R := runtime (inl abort_error) (inr (Some (plan false))) in
   let '(r, tr) := run (execute (H1 := R) this) in
   let '(r', tr') := run (execute (H1 := R) (without_config this)) in
   r = r' /\
   events tr = events tr' /\
   requests tr = FetchGet "https://x/planner/ReplyMessage/Facebook" :: requests tr' /\
   logs tr = (attempt_lines this abort_error ++ logs tr')%list).
Proof.
  split.
  - exact (proj1 (aborted_llm_call_is_cancelled
                    (H1 := runtime (inr http_500) (inl abort_error))
                    (agent 0 true false history (Some server_first)))
             abort_error (fun _ => non_2xx_status http_500 eq_refl)
             eq_refl eq_refl eq_refl eq_refl).
  - exact (proj2 (aborted_llm_call_is_cancelled
                    (H1 := runtime (inl abort_error) (inr (Some (plan false))))
                    (agent 0 true false history (Some server_first)))
             abort_error eq_refl eq_refl).
Defined.

(** The final message is an answer of the model with a plain string
    content: it does not stay as it is, it becomes a human message. *)
Lemma final_message_becomes_human :
  let this := agent 1 true false history_with_answer None in
  let R := runtime (inr http_500) (inr None) in
  useVision (options (context this)) = true /\
  useVisionForPlanner (options (context this)) = false /\
  last (getSystemMessage (Runtime := R) :: drop 1 (getMessages (context this)))
    = Some model_answer /\
  content model_answer = StringContent "Opening the inbox." /\
  assemble_messages (H1 := R) this no_trace
    = (inr [system_prompt; HumanMessage "Reply to the new messages";
            HumanMessage "Opening the inbox."], no_trace) /\
  last (planning_input (H := R) this) <> Some model_answer.
Proof.
  cbv zeta. vm_compute. repeat split; try reflexivity; discriminate.
Qed.

(** The state message holds a text, a screenshot and another text. *)
Lemma vision_rule_final_message_witness :
  let this := agent 1 true false history None in
  let R := runtime (inr http_500) (inr None) in
  exists init m,
    getSystemMessage (Runtime := R) :: drop 1 (getMessages (context this))
      = (init ++ [m])%list /\
    assemble_messages (H1 := R) this no_trace =
      (inr (init ++ [{| getType := human;
                        content := StringContent
                                     match content m with
                                     | ArrayContent parts => text_segments parts
                                     | StringContent s => s
                                     end |}])%list, no_trace).
Proof.
  cbv zeta.
  apply (vision_rule_final_message (H1 := runtime (inr http_500) (inr None))
           (agent 1 true false history None) no_trace); reflexivity.
Defined.

(** A later step: the chat model answers with a finished plan. *)
Lemma step_ok_event_message_witness :
  let this := agent 1 true true history None in
  let R := runtime (inr http_500) (inr (Some (plan true))) in
  events (snd (run (execute (H1 := R) this))) =
    [step_start; {| actor := PLANNER; state := STEP_OK; data := "FINAL" |}]
  /\ count_state STEP_OK (snd (run (execute (H1 := R) this))) = 1%nat.
Proof.
  cbv zeta.
  exact (step_ok_event_message (H1 := runtime (inr http_500) (inr (Some (plan true))))
           (agent 1 true true history None) (plan true)
           (add_request (LlmInvoke history) (add_event step_start no_trace))
           eq_refl).
Defined.

(** A later step: the chat model produces no structured output. *)
Lemma step_outcome_exclusive_witness :
  let out := {| output_id := "planner"; result := None;
                error := Some "Failed to validate planner output" |} in
  (is_Some (result out) /\ error out = None) \/
  (result out = None /\ is_Some (error out)).
Proof.
  cbv zeta.
  exact (step_outcome_exclusive (H := errors_by_name) (H0 := no_filter)
           (H1 := runtime (inr http_500) (inr None))
           (agent 1 true true history None) no_trace
           (add_event (step_fail (JsError "Error" "Failed to validate planner output"))
              (add_log (planning_failed_line
                          (JsError "Error" "Failed to validate planner output"))
                 (add_request (LlmInvoke history) (add_event step_start no_trace))))
           _ eq_refl).
Defined.

(** The end-to-end scenario of the document: the server answers HTTP 200
    with the booleans written as strings. *)
Lemma cleaned_result_frame_witness :
  let this := agent 0 true true history (Some server_first) in
  let R := runtime (inr http_200) (inr None) in
  exists out cleanedPlan,
    fst (execute (H1 := R) this no_trace) = inr out /\ result out = Some cleanedPlan /\
    done cleanedPlan = true /\
    web_task cleanedPlan = false /\
    observation cleanedPlan = "o" /\
    challenges cleanedPlan = "c" /\
    reasoning cleanedPlan = "r" /\
    final_answer cleanedPlan = "FINAL" /\
    next_steps cleanedPlan = "n".
Proof.
  cbv zeta.
  exact (cleaned_result_frame (H1 := runtime (inr http_200) (inr None))
           (agent 0 true true history (Some server_first)) no_trace
           (add_log {| level := log_info; args := ["Server plan received"; "{...}"] |}
              (server_attempt (agent 0 true true history (Some server_first))
                 (add_event step_start no_trace)))
           {| observation := "o"; challenges := "c"; done := true; next_steps := "n";
              final_answer := "FINAL"; reasoning := "r"; web_task := false |}
           eq_refl).
Defined.

End PlannerExamples.

(** ** The initialization service *)

Section InitializationProperties.
Import Initialization.
Context `{StorageModule} `{Environment}.

Lemma Object_keys_lookup {V : Type} (o : gmap string V) (k : string) (v : V) :
  o !! k = Some v -> (0 <? length (Object_keys o))%nat = true.
Proof.
  intros Hk. apply Nat.ltb_lt. unfold Object_keys.
  rewrite length_fmap, length_map_to_list.
  assert (size o <> 0%nat); [| lia].
  apply map_size_non_empty_iff. intros ->. now rewrite lookup_empty in Hk.
Qed.

(** With providers in the store, the service reads them, writes one line
    to the log and returns. *)
Lemma ensureDefaultConfiguration_skips (w : World)
    (stored : gmap string ProviderConfig) (s' : Storage) :
  getAllProviders (storage w) = (inr stored, s') ->
  (0 <? length (Object_keys stored))%nat = true ->
  ensureDefaultConfiguration w =
    (inr tt,
     {| storage := s';
        calls := calls w ++ [GetAllProviders];
        log_lines := log_lines w ++
          [{| level := log_info;
              args := ["Providers already configured, skipping default setup"] |}] |}).
Proof.
  intros Hget Hkeys.
  unfold ensureDefaultConfiguration, Eff.try_catch, ensureDefaultConfiguration_try.
  unfold Eff.await at 1.
  unfold llmProviderStore_getAllProviders, store_call. rewrite Hget, Hkeys.
  reflexivity.
Qed.

(** C10. [ensureDefaultConfiguration] never rejects, whatever the store
    operations do, rejections included; and when [getAllProviders] resolves
    with at least one provider, the service makes no other store call: it
    writes nothing. *)
Theorem ensureDefaultConfiguration_never_rejects (w : World) :
  fst (ensureDefaultConfiguration w) = inr tt /\
  (forall (stored : gmap string ProviderConfig) (s' : Storage)
          (providerId : string) (config : ProviderConfig),
      getAllProviders (storage w) = (inr stored, s') ->
      stored !! providerId = Some config ->
      calls (snd (ensureDefaultConfiguration w)) = (calls w ++ [GetAllProviders])%list /\
      List.filter is_write (calls (snd (ensureDefaultConfiguration w)))
        = List.filter is_write (calls w) /\
      storage (snd (ensureDefaultConfiguration w)) = s').
Proof.
  split.
  - unfold ensureDefaultConfiguration, Eff.try_catch.
    destruct (ensureDefaultConfiguration_try w) as [[e | []] w']; reflexivity.
  - intros stored s' providerId config Hget Hstored.
    rewrite (ensureDefaultConfiguration_skips w stored s' Hget
               (Object_keys_lookup stored providerId config Hstored)).
    cbn [snd calls storage]. rewrite List.filter_app. cbn [List.filter is_write].
    rewrite app_nil_r. auto.
Qed.

End InitializationProperties.

Section InitializationExamples.
Import Initialization SampleStore.

#[local] Existing Instance store.
#[local] Existing Instance environment.

(** With one provider configured the service only reads. *)
Lemma ensureDefaultConfiguration_never_rejects_witness :
  calls (snd (ensureDefaultConfiguration configured)) = [GetAllProviders] /\
  List.filter is_write (calls (snd (ensureDefaultConfiguration configured))) = [] /\
  storage (snd (ensureDefaultConfiguration configured)) = storage configured.
Proof.
  exact (proj2 (ensureDefaultConfiguration_never_rejects configured)
           {[ "openai" := openai ]} (storage configured) "openai" openai
           eq_refl eq_refl).
Defined.

(** On a fresh profile whose storage rejects the second write, the service
    has created the provider, failed on the planner model, logged the
    error and resolved. *)
Example ensureDefaultConfiguration_quota_exceeded :
  let '(r, w) := ensureDefaultConfiguration fresh_nearly_full in
  r = inr tt /\
  List.map is_write (calls w) = [false; true; true] /\
  agentModels (storage w) = [] /\
  last (log_lines w) =
    Some {| level := log_error;
            args := ["Failed to create default configuration:";
                     "Error: QUOTA_BYTES quota exceeded"] |}.
Proof. vm_compute. repeat split; reflexivity. Qed.

End InitializationExamples.

(** ** The content sanitizer *)

Section SanitizerProperties.
Import Sanitizer.
Variable markers : list string.

(** A pass never makes the text longer. *)
Lemma remove_markers_length (skip : nat) (s : string) :
  (String.length (remove_markers markers skip s) <= String.length s)%nat.
Proof.
  revert skip. induction s as [| c rest IH]; intros skip; cbn; [lia |].
  destruct skip as [| k].
  - destruct (marker_at markers (String c rest)) as [k |].
    + specialize (IH k). lia.
    + cbn. specialize (IH 0%nat). lia.
  - specialize (IH k). lia.
Qed.

(** A pass that keeps the length found no marker and changed nothing. *)
Lemma remove_markers_same_length (s : string) :
  String.length (remove_markers markers 0 s) = String.length s ->
  remove_markers markers 0 s = s.
Proof.
  induction s as [| c rest IH]; cbn; [reflexivity |].
  destruct (marker_at markers (String c rest)) as [k |].
  - pose proof (remove_markers_length k rest). lia.
  - cbn. intros [= Hlen]. now rewrite IH.
Qed.

(** With enough passes allowed, the text that comes out is stable. *)
Lemma until_stable_fixed (fuel : nat) (s : string) :
  (String.length s <= fuel)%nat ->
  remove_markers markers 0 (until_stable markers fuel s) = until_stable markers fuel s.
Proof.
  revert s. induction fuel as [| n IH]; intros s Hlen; cbn.
  - destruct s; [reflexivity | cbn in Hlen; lia].
  - destruct (String.eqb_spec (remove_markers markers 0 s) s) as [Heq | Hne];
      [exact Heq |].
    apply IH.
    pose proof (remove_markers_length 0 s) as Hle.
    destruct (Nat.eq_dec (String.length (remove_markers markers 0 s)) (String.length s))
      as [Hsame | Hless]; [| lia].
    now apply remove_markers_same_length in Hsame.
Qed.

Lemma until_stable_of_fixed (fuel : nat) (s : string) :
  remove_markers markers 0 s = s -> until_stable markers fuel s = s.
Proof.
  intros Hfix. destruct fuel as [| n]; cbn; [reflexivity |].
  now rewrite Hfix, String.eqb_refl.
Qed.

(** C8. The sanitizer is idempotent: sanitizing a sanitized text changes
    nothing. *)
Theorem sanitize_idempotent (x : string) :
  filterExternalContent (MessagesUtils := utils markers)
    (filterExternalContent (MessagesUtils := utils markers) x)
  = filterExternalContent (MessagesUtils := utils markers) x.
Proof.
  cbn. unfold sanitize at 1. apply until_stable_of_fixed.
  unfold sanitize. now apply until_stable_fixed.
Qed.

End SanitizerProperties.

(** One pass alone is not enough: leaving out a marker can bring the two
    halves of another one together. *)
Example remove_markers_once :
  Sanitizer.remove_markers ["<ext>"] 0 "a<e<ext>xt>b" = "a<ext>b"
  /\ Sanitizer.sanitize ["<ext>"] "a<e<ext>xt>b" = "ab".
Proof. split; reflexivity. Qed.

(** * Further properties *)

(** ** The address of the remote planning call *)

Section Url.

Lemma of_rev_chars_rev_chars (s : string) (acc : list ascii) (t : string) :
  Js.of_rev_chars (Js.rev_chars s acc) t = Js.of_rev_chars acc (s ++ t).
Proof.
  revert acc. induction s as [| c s IH]; intros acc; cbn; [reflexivity |].
  now rewrite IH.
Qed.

Lemma rev_chars_app (a b : string) (acc : list ascii) :
  Js.rev_chars (a ++ b) acc = Js.rev_chars b (Js.rev_chars a acc).
Proof.
  revert acc. induction a as [| c a IH]; intros acc; [reflexivity |].
  rewrite string_app_cons. cbn. apply IH.
Qed.

Lemma of_rev_chars_app (l : list ascii) (t : string) :
  Js.of_rev_chars l t = Js.of_rev_chars l "" ++ t.
Proof.
  revert t. induction l as [| c l IH]; intros t; cbn; [reflexivity |].
  rewrite (IH (String c t)), (IH (String c "")), string_app_assoc. reflexivity.
Qed.

(** A slash at the end is removed, whatever stands before it. *)
Lemma replace_trailing_slash_app (s : string) : Js.replace_trailing_slash (s ++ "/") = s.
Proof.
  unfold Js.replace_trailing_slash. rewrite rev_chars_app. cbn.
  now rewrite of_rev_chars_rev_chars, string_app_empty_r.
Qed.

(** A string that does not end with a slash is left as it is. *)
Lemma replace_trailing_slash_none (s : string) :
  (forall p, s <> p ++ "/") -> Js.replace_trailing_slash s = s.
Proof.
  intros Hend. unfold Js.replace_trailing_slash.
  destruct (Js.rev_chars s []) as [| c l] eqn:Hrev; [reflexivity |].
  destruct (Ascii.eqb_spec c "/") as [-> | Hc].
  - exfalso. apply (Hend (Js.of_rev_chars l "")).
    pose proof (of_rev_chars_rev_chars s [] "") as Hs.
    rewrite Hrev, string_app_empty_r in Hs. cbn in Hs.
    now rewrite <- Hs, of_rev_chars_app.
  - destruct c as [[] [] [] [] [] [] [] []]; try reflexivity. now contradiction Hc.
Qed.

(** X1. The remote planning address is the endpoint followed by the route
    [/planner/ReplyMessage/Facebook]; exactly one slash at the end of the
    endpoint is dropped first, so an endpoint written with or without it
    gives the same address, and of two slashes one stays. *)
Theorem apiUrl_trailing_slash :
  (forall base : string,
      apiUrl_of (base ++ "/") = base ++ "/planner/ReplyMessage/Facebook") /\
  (forall base : string,
      (forall p, base <> p ++ "/") ->
      apiUrl_of base = base ++ "/planner/ReplyMessage/Facebook").
Proof.
  split.
  - intros base. unfold apiUrl_of. now rewrite replace_trailing_slash_app.
  - intros base Hend. unfold apiUrl_of. now rewrite replace_trailing_slash_none.
Qed.

End Url.

Lemma apiUrl_trailing_slash_witness :
  apiUrl_of "https://x//" = "https://x//planner/ReplyMessage/Facebook"
  /\ apiUrl_of "https://x" = "https://x/planner/ReplyMessage/Facebook".
Proof.
  split.
  - exact (proj1 apiUrl_trailing_slash "https://x/").
  - apply (proj2 apiUrl_trailing_slash "https://x").
    intros p Hp. apply (f_equal (fun s => Js.rev_chars s [])) in Hp.
    rewrite rev_chars_app in Hp. cbn in Hp. discriminate.
Defined.

(** ** The output schema, continued *)

Section SchemaFurther.

Lemma and_then_valid {A B : Type} (f : Validation (A -> B)) (x : Validation A) (y : B) :
  and_then f x = Valid y -> exists g a, f = Valid g /\ x = Valid a /\ y = g a.
Proof. destruct f, x; cbn; intros [=]; subst; eauto. Qed.

Lemma string_valid (path : string) (v : option json) (s : string) :
  string_ path v = Valid s -> v = Some (JString s).
Proof. destruct v as [[] |]; cbn; intros [=]; now subst. Qed.

Lemma equal_ignoring_case_length (s t : string) :
  equal_ignoring_case s t = true -> String.length s = String.length t.
Proof.
  revert t. induction s as [| a s IH]; intros [| b t]; cbn; try discriminate;
    [reflexivity |].
  intros [_ Hst]%andb_true_iff. now rewrite (IH t Hst).
Qed.

Lemma boolean_of_string_valid (val : string) (b : bool) :
  boolean_of_string val = Valid b ->
  equal_ignoring_case val (if b then "true" else "false") = true.
Proof.
  rewrite boolean_of_string_spec.
  destruct (equal_ignoring_case val "true") eqn:Ht.
  - intros [= <-]. exact Ht.
  - destruct (equal_ignoring_case val "false") eqn:Hf; [| discriminate].
    intros [= <-]. exact Hf.
Qed.

Lemma boolean_or_string_valid (path : string) (v : option json) (b : bool) :
  boolean_or_string path v = Valid b -> exists d, v = Some d /\ boolean_like d b.
Proof.
  destruct v as [[| b' | | s | |] |]; cbn; try discriminate.
  - intros [= <-]. eexists. split; [reflexivity | now left].
  - intros Hs. eexists. split; [reflexivity |]. right. exists s.
    split; [reflexivity | now apply boolean_of_string_valid].
Qed.

(** X2. [plannerOutputSchema.parse] returns a record exactly for an object
    whose five text members are strings and whose two boolean members are
    literal booleans or spell one up to case; the record holds those
    strings and those booleans.  Every other input (a value that is not an
    object, a missing or mistyped member) makes it throw. *)
Theorem schema_accepts_exactly (data : json) (out : PlannerOutput) :
  plannerOutputSchema_parse data = inr out <->
  exists members : list (string * json),
    data = JObject members /\
    get_member "observation" members = Some (JString (observation out)) /\
    get_member "challenges" members = Some (JString (challenges out)) /\
    get_member "next_steps" members = Some (JString (next_steps out)) /\
    get_member "final_answer" members = Some (JString (final_answer out)) /\
    get_member "reasoning" members = Some (JString (reasoning out)) /\
    (exists d, get_member "done" members = Some d /\ boolean_like d (done out)) /\
    (exists w, get_member "web_task" members = Some w /\ boolean_like w (web_task out)).
Proof.
  split.
  - destruct data as [| | | | | members]; try discriminate.
    unfold plannerOutputSchema_parse.
    destruct (plannerOutputSchema members) as [out' | |] eqn:Hs; try discriminate.
    intros [= ->]. exists members. split; [reflexivity |].
    unfold plannerOutputSchema in Hs.
    apply and_then_valid in Hs as (g7 & w & Hs & Hw & ->).
    apply and_then_valid in Hs as (g6 & r & Hs & Hr & ->).
    apply and_then_valid in Hs as (g5 & f & Hs & Hf & ->).
    apply and_then_valid in Hs as (g4 & n & Hs & Hn & ->).
    apply and_then_valid in Hs as (g3 & d & Hs & Hd & ->).
    apply and_then_valid in Hs as (g2 & c & Hs & Hc & ->).
    apply and_then_valid in Hs as (g1 & o & Hs & Ho & ->).
    injection Hs as <-. cbn.
    apply string_valid in Ho, Hc, Hn, Hf, Hr.
    apply boolean_or_string_valid in Hd, Hw. auto 10.
  - intros (members & -> & Ho & Hc & Hn & Hf & Hr & (d & Hd & Hbd) & (w & Hw & Hbw)).
    unfold plannerOutputSchema_parse, plannerOutputSchema.
    rewrite Ho, Hc, Hn, Hf, Hr, Hd, Hw.
    rewrite (boolean_or_string_like "done" d _ Hbd).
    rewrite (boolean_or_string_like "web_task" w _ Hbw).
    destruct out; reflexivity.
Qed.

(** X3. A string that the schema coerces to a boolean has exactly the
    length of the word it spells: nothing is trimmed, so a padded " true"
    or an abbreviation is an invalid boolean string. *)
Theorem boolean_string_length (val : string) (b : bool) :
  boolean_of_string val = Valid b ->
  String.length val = if b then 4%nat else 5%nat.
Proof.
  intros Hb%boolean_of_string_valid.
  apply equal_ignoring_case_length in Hb. rewrite Hb. now destruct b.
Qed.

End SchemaFurther.

Lemma schema_accepts_exactly_witness :
  exists members : list (string * json),
    raw_output (JString "o") (JString "c") (JBool true) (JString "n")
               (JString "FINAL") (JString "r") (JString "False") = JObject members /\
    get_member "observation" members = Some (JString "o") /\
    get_member "challenges" members = Some (JString "c") /\
    get_member "next_steps" members = Some (JString "n") /\
    get_member "final_answer" members = Some (JString "FINAL") /\
    get_member "reasoning" members = Some (JString "r") /\
    (exists d, get_member "done" members = Some d /\ boolean_like d true) /\
    (exists w, get_member "web_task" members = Some w /\ boolean_like w false).
Proof.
  exact (proj1 (schema_accepts_exactly
                  (raw_output (JString "o") (JString "c") (JBool true) (JString "n")
                              (JString "FINAL") (JString "r") (JString "False"))
                  {| observation := "o"; challenges := "c"; done := true;
                     next_steps := "n"; final_answer := "FINAL"; reasoning := "r";
                     web_task := false |}) eq_refl).
Defined.

Lemma boolean_string_length_witness : String.length "FALSE" = 5%nat.
Proof. exact (boolean_string_length "FALSE" false eq_refl). Defined.

(** ** The planning step, continued *)

Section PlannerFurther.
Context `{ErrorsModule} `{MessagesUtils} `{Runtime}.

Import Async.

Lemma remote_plan_none (f : JsThrown + Response) :
  remote_plan f = None <-> RemoteFailure f.
Proof.
  split.
  - destruct (remote_failure_or_plan f)
      as [Hfail | (r & plan & out & -> & Hok & Hbody & Hparse)]; [auto |].
    cbn. now rewrite Hok, Hbody, Hparse.
  - intros [e | r Hok | r e Hok Hbody | r plan f' Hok Hbody Hparse]; cbn;
      rewrite ?Hok, ?Hbody, ?Hparse; reflexivity.
Qed.

Lemma remote_plan_some (f : JsThrown + Response) (out : PlannerOutput) :
  remote_plan f = Some out ->
  exists r serverPlan,
    f = inr r /\ ok r = true /\ body r = inr serverPlan /\
    plannerOutputSchema_parse serverPlan = inr out.
Proof.
  destruct f as [e | r]; cbn; [discriminate |].
  destruct (ok r) eqn:Hok; [| discriminate].
  destruct (body r) as [e | plan] eqn:Hbody; [discriminate |].
  destruct (plannerOutputSchema_parse plan) as [f | out'] eqn:Hparse; [discriminate |].
  intros [= <-]. eauto 10.
Qed.

Lemma executeWithServerPlan_plan (this : PlannerAgent) (t : Trace) (out : PlannerOutput) :
  Js.truthy_string (config_serverPlanEndpoint this) = true ->
  remote_plan (fetch (server_url this)) = Some out ->
  executeWithServerPlan this t =
    (inr out,
     add_log (plan_received_line out)
       (add_request (FetchGet (server_url this))
          (add_log {| level := log_info;
                      args := ["Fetching plan from server: " ++ server_url this] |} t))).
Proof.
  intros Hend (r & plan & Hf & Hok & Hbody & Hparse)%remote_plan_some.
  unfold executeWithServerPlan. rewrite Hend. cbn [negb]. fold (server_url this).
  unfold Eff.await, logger_info, log, request, Eff.of_sum, Eff.throw, Eff.resolve.
  rewrite Hf. cbn. rewrite Hok, Hbody. cbn. rewrite Hparse. reflexivity.
Qed.

Lemma executeWithServerPlan_unconfigured (this : PlannerAgent) (t : Trace) :
  Js.truthy_string (config_serverPlanEndpoint this) = false ->
  executeWithServerPlan this t =
    (inl (JsError "Error" "Server plan endpoint not configured"), t).
Proof. intros Hend. unfold executeWithServerPlan. now rewrite Hend. Qed.

(** X4. [executeWithServerPlan] resolves exactly when an endpoint is
    configured and the server answers in the 2xx range with a readable
    body that the schema accepts; it then resolves with the parsed plan.
    In every other case it rejects. *)
Theorem executeWithServerPlan_resolves (this : PlannerAgent) (t : Trace)
    (out : PlannerOutput) :
  fst (executeWithServerPlan this t) = inr out <->
  Js.truthy_string (config_serverPlanEndpoint this) = true /\
  remote_plan (fetch (server_url this)) = Some out.
Proof.
  split.
  - destruct (Js.truthy_string (config_serverPlanEndpoint this)) eqn:Hend.
    + destruct (remote_plan (fetch (server_url this))) as [out' |] eqn:Hplan.
      * rewrite (executeWithServerPlan_plan this t out' Hend Hplan). cbn.
        intros [= ->]. auto.
      * apply remote_plan_none in Hplan.
        destruct (executeWithServerPlan_fails this t Hend Hplan) as (e & ->).
        discriminate.
    + rewrite (executeWithServerPlan_unconfigured this t Hend). discriminate.
  - intros [Hend Hplan]. now rewrite (executeWithServerPlan_plan this t out Hend Hplan).
Qed.

(** X5. [executeWithServerPlan] sends exactly one GET request, to the
    planning address, when an endpoint is configured, whatever the answer
    is, and no request at all when none is configured; it never emits an
    event. *)
Theorem executeWithServerPlan_requests (this : PlannerAgent) (t : Trace) :
  requests (snd (executeWithServerPlan this t)) =
    (requests t ++
       if Js.truthy_string (config_serverPlanEndpoint this)
       then [FetchGet (server_url this)] else [])%list
  /\ events (snd (executeWithServerPlan this t)) = events t.
Proof.
  destruct (Js.truthy_string (config_serverPlanEndpoint this)) eqn:Hend.
  - destruct (remote_plan (fetch (server_url this))) as [out |] eqn:Hplan.
    + now rewrite (executeWithServerPlan_plan this t out Hend Hplan).
    + apply remote_plan_none in Hplan.
      now destruct (executeWithServerPlan_fails this t Hend Hplan) as (e & ->).
  - rewrite (executeWithServerPlan_unconfigured this t Hend). cbn.
    now rewrite app_nil_r.
Qed.

Lemma get_model_output_server (this : PlannerAgent) (msgs : list BaseMessage) (t : Trace)
    (out : PlannerOutput) :
  uses_server_plan this = true ->
  remote_plan (fetch (server_url this)) = Some out ->
  get_model_output this msgs t =
    (inr (Some out), add_log (plan_received_line out) (server_attempt this t)).
Proof.
  intros Huses Hplan. unfold get_model_output. rewrite Huses.
  unfold Eff.await at 1. unfold logger_info at 1. unfold log at 1.
  unfold Eff.try_catch, Eff.await at 1.
  now rewrite (executeWithServerPlan_plan this _ out
                 (uses_server_plan_endpoint this Huses) Hplan).
Qed.

(** X6. When the first step takes the plan from the server, [execute]
    returns that plan with its text fields sanitized, emits step-start and
    one step-ok event, and the only outbound request is the GET: the chat
    model is not called. *)
Theorem server_plan_is_returned (this : PlannerAgent) (out : PlannerOutput) :
  uses_server_plan this = true ->
  remote_plan (fetch (server_url this)) = Some out ->
  let '(r, tr) := run (execute this) in
  r = inr {| output_id := id this; result := Some (clean out); error := None |} /\
  events tr = [step_start; step_ok out] /\
  requests tr = [FetchGet (server_url this)].
Proof.
  intros Huses Hplan. unfold run.
  rewrite execute_run, (get_model_output_server this _ _ out Huses Hplan).
  auto.
Qed.

(** X7. The outbound requests of one step: without server-first planning,
    one call of the chat model; with it, one GET, followed by one call of
    the chat model exactly when the GET brought no valid plan.  There is
    never a second GET nor a second call of the chat model. *)
Theorem step_requests (this : PlannerAgent) (t : Trace) :
  requests (snd (execute this t)) =
    (requests t ++
       if uses_server_plan this then
         FetchGet (server_url this) ::
         match remote_plan (fetch (server_url this)) with
         | Some _ => []
         | None => [LlmInvoke (planning_input this)]
         end
       else [LlmInvoke (planning_input this)])%list.
Proof.
  rewrite execute_run.
  assert (Hcatch : forall e t2, requests (snd (execute_catch this e t2)) = requests t2).
  { intros e t2. pose proof (execute_catch_trace this e t2) as Ht.
    destruct (execute_catch this e t2) as [r t3]. apply Ht. }
  destruct (uses_server_plan this) eqn:Huses.
  - destruct (remote_plan (fetch (server_url this))) as [out |] eqn:Hplan.
    + rewrite (get_model_output_server this _ _ out Huses Hplan). reflexivity.
    + apply remote_plan_none in Hplan.
      destruct (get_model_output_fallback this (planning_input this)
                  (add_event step_start t) Huses Hplan) as (e0 & ->).
      destruct (invoke_outcome (planning_input this)) as [e | [mo |]];
        rewrite ?Hcatch; cbn; now rewrite <- ?app_assoc.
  - rewrite (get_model_output_direct this _ _ Huses).
    destruct (invoke_outcome (planning_input this)) as [e | [mo |]];
      rewrite ?Hcatch; reflexivity.
Qed.

Lemma get_model_output_llm (this : PlannerAgent) (t : Trace) :
  (uses_server_plan this = true -> remote_plan (fetch (server_url this)) = None) ->
  exists t', events t' = events t /\
    get_model_output this (planning_input this) t
      = (invoke_outcome (planning_input this), t').
Proof.
  intros Hremote. destruct (uses_server_plan this) eqn:Huses.
  - destruct (get_model_output_fallback this (planning_input this) t Huses
                (proj1 (remote_plan_none _) (Hremote eq_refl))) as (e0 & ->).
    eexists. split; [| reflexivity]. reflexivity.
  - rewrite (get_model_output_direct this _ _ Huses).
    eexists. split; [| reflexivity]. reflexivity.
Qed.

(** X8. A failed remote call changes nothing for the caller: the step
    settles as the step of the same agent without planner configuration
    does, with the same outcome or rejection and the same events. *)
Theorem fallback_as_direct (this : PlannerAgent) (t : Trace) :
  uses_server_plan this = true ->
  remote_plan (fetch (server_url this)) = None ->
  fst (execute this t) = fst (execute (without_config this) t) /\
  events (snd (execute this t)) = events (snd (execute (without_config this) t)).
Proof.
  intros Huses Hplan. rewrite !execute_run.
  change (planning_input (without_config this)) with (planning_input this).
  assert (Hdirect : uses_server_plan (without_config this) = false).
  { unfold uses_server_plan. cbn. now rewrite andb_false_r. }
  rewrite (get_model_output_direct (without_config this) _ _ Hdirect).
  destruct (get_model_output_fallback this (planning_input this)
              (add_event step_start t) Huses (proj1 (remote_plan_none _) Hplan))
    as (e0 & ->).
  assert (Hcatch : forall e t1 t2, events t1 = events t2 ->
    fst (execute_catch this e t1) = fst (execute_catch (without_config this) e t2) /\
    events (snd (execute_catch this e t1))
      = events (snd (execute_catch (without_config this) e t2))).
  { intros e t1 t2 Hev. rewrite !execute_catch_run.
    destruct (classify e); cbn; rewrite ?Hev; auto. }
  destruct (invoke_outcome (planning_input this)) as [e | [mo |]];
    [apply Hcatch | | apply Hcatch]; auto.
Qed.

(** X9. The events of every step: first step-start; then nothing more when
    [execute] rejects, one step-ok event with the text of the returned
    plan when it returns a result, and one step-fail event with the
    returned error message when it returns an error.  A step never emits
    both a step-ok and a step-fail event. *)
Theorem step_events (this : PlannerAgent) (t : Trace) :
  let '(r, t') := execute this t in
  match r with
  | inl _ => events t' = (events t ++ [step_start])%list
  | inr out =>
      (exists modelOutput,
          result out = Some (clean modelOutput) /\ error out = None /\
          events t' = (events t ++ [step_start; step_ok modelOutput])%list) \/
      (exists e,
          result out = None /\ error out = Some (errorMessage e) /\
          events t' = (events t ++ [step_start; step_fail e])%list)
  end.
Proof.
  rewrite execute_run.
  pose proof (get_model_output_events this (planning_input this) (add_event step_start t))
    as Hev.
  destruct (get_model_output this (planning_input this) (add_event step_start t))
    as [o t2]. cbn in Hev.
  assert (Hcatch : forall e,
    let '(r, t') := execute_catch this e t2 in
    match r with
    | inl _ => events t' = (events t ++ [step_start])%list
    | inr out =>
        (exists modelOutput,
            result out = Some (clean modelOutput) /\ error out = None /\
            events t' = (events t ++ [step_start; step_ok modelOutput])%list) \/
        (exists e,
            result out = None /\ error out = Some (errorMessage e) /\
            events t' = (events t ++ [step_start; step_fail e])%list)
    end).
  { intros e. pose proof (execute_catch_trace this e t2) as Ht.
    destruct (execute_catch this e t2) as [[e' | out] t3].
    - destruct Ht as (_ & _ & -> & _). exact Hev.
    - destruct Ht as (_ & _ & Hres & Herr & -> & _). right. exists e.
      rewrite Hev, <- app_assoc. auto. }
  destruct o as [e | [modelOutput |]]; [apply Hcatch | | apply Hcatch].
  left. exists modelOutput. cbn. rewrite Hev, <- app_assoc. auto.
Qed.

(** X10. [execute] never rejects with a raw error: a rejection is always
    one of [ChatModelAuthError], [ChatModelBadRequestError],
    [RequestCancelledError] and [ChatModelForbiddenError]. *)
Theorem rejections_are_typed (this : PlannerAgent) (t t' : Trace) (e : JsThrown) :
  execute this t = (inl e, t') -> is_typed_error e = true.
Proof.
  rewrite execute_run.
  destruct (get_model_output this (planning_input this) (add_event step_start t))
    as [[e0 | [modelOutput |]] t2]; try discriminate;
    intros Hc;
    match type of Hc with
    | execute_catch _ ?e1 _ = _ => pose proof (execute_catch_trace this e1 t2) as Ht
    end;
    rewrite Hc in Ht; apply Ht.
Qed.

(** X11. When the chat model is called and gives no plan (it throws, or it
    resolves with [null], which counts as the error "Failed to validate
    planner output") and none of the four tests matches the error,
    [execute] returns an outcome whose [error] is the message of the
    error, emits one step-fail event "Planning failed: <message>" and
    ends its log with the same line at error level. *)
Theorem unclassified_failure_is_reported (this : PlannerAgent) (e : JsThrown) :
  (uses_server_plan this = true -> remote_plan (fetch (server_url this)) = None) ->
  model_failure (invoke_outcome (planning_input this)) = Some e ->
  classify e = Unclassified ->
  let '(r, tr) := run (execute this) in
  r = inr {| output_id := id this; result := None; error := Some (errorMessage e) |} /\
  events tr = [step_start; step_fail e] /\
  last (logs tr) = Some (planning_failed_line e).
Proof.
  intros Hremote Hfail Hclass. unfold run. rewrite execute_run.
  destruct (get_model_output_llm this (add_event step_start no_trace) Hremote)
    as (t2 & Hev & ->).
  assert (Hcatch : let '(r, tr) := execute_catch this e t2 in
    r = inr {| output_id := id this; result := None; error := Some (errorMessage e) |} /\
    events tr = [step_start; step_fail e] /\
    last (logs tr) = Some (planning_failed_line e)).
  { rewrite execute_catch_run, Hclass. cbn. rewrite Hev, last_snoc. auto. }
  destruct (invoke_outcome (planning_input this)) as [e' | [mo |]]; cbn in Hfail;
    [| discriminate |]; injection Hfail as <-; exact Hcatch.
Qed.

(** X12. When the chat model is called and gives no plan and one of the
    four tests matches the error, [execute] rejects and emits nothing
    after step-start.  The authentication and bad-request errors carry the
    message of the error and the error itself as cause, the cancellation
    carries the message, and the forbidden error carries the fixed message
    [LLM_FORBIDDEN_ERROR_MESSAGE] instead of the message of the error. *)
Theorem classified_failure_is_rethrown (this : PlannerAgent) (e : JsThrown) :
  (uses_server_plan this = true -> remote_plan (fetch (server_url this)) = None) ->
  model_failure (invoke_outcome (planning_input this)) = Some e ->
  classify e <> Unclassified ->
  let '(r, tr) := run (execute this) in
  r = inl match classify e with
          | Authentication => ChatModelAuthError (errorMessage e) e
          | BadRequest => ChatModelBadRequestError (errorMessage e) e
          | Cancelled => RequestCancelledError (errorMessage e)
          | _ => ChatModelForbiddenError LLM_FORBIDDEN_ERROR_MESSAGE e
          end /\
  events tr = [step_start].
Proof.
  intros Hremote Hfail Hclass. unfold run. rewrite execute_run.
  destruct (get_model_output_llm this (add_event step_start no_trace) Hremote)
    as (t2 & Hev & ->).
  assert (Hcatch : let '(r, tr) := execute_catch this e t2 in
    r = inl match classify e with
            | Authentication => ChatModelAuthError (errorMessage e) e
            | BadRequest => ChatModelBadRequestError (errorMessage e) e
            | Cancelled => RequestCancelledError (errorMessage e)
            | _ => ChatModelForbiddenError LLM_FORBIDDEN_ERROR_MESSAGE e
            end /\
    events tr = [step_start]).
  { rewrite execute_catch_run. destruct (classify e); try contradiction; auto. }
  destruct (invoke_outcome (planning_input this)) as [e' | [mo |]]; cbn in Hfail;
    [| discriminate |]; injection Hfail as <-; exact Hcatch.
Qed.

(** X13. The planning input has as many messages as the history, and one
    when the history is empty.  With two or more messages in the history
    its first message is the system prompt of the planner.  With at most
    one and the vision rule in force, its only message is the system
    prompt itself, rewritten as a human message. *)
Theorem planning_input_shape (this : PlannerAgent) :
  length (planning_input this) = Nat.max 1 (length (getMessages (context this))) /\
  (2 <= length (getMessages (context this)) ->
   head (planning_input this) = Some getSystemMessage) /\
  (length (getMessages (context this)) <= 1 ->
   useVision (options (context this)) = true ->
   useVisionForPlanner (options (context this)) = false ->
   planning_input this = [without_images getSystemMessage]).
Proof.
  destruct (assemble_messages_run this no_trace) as (init & m & Hlast & Hrun).
  rewrite assemble_messages_planning_input in Hrun. injection Hrun as Hinput.
  assert (Hlen : length (init ++ [m]) = Nat.max 1 (length (getMessages (context this)))).
  { rewrite <- Hlast. cbn. rewrite length_drop. lia. }
  rewrite length_app in Hlen. cbn in Hlen.
  split; [| split].
  - rewrite Hinput. destruct (negb _ && _); rewrite length_app; cbn; lia.
  - intros Htwo. destruct init as [| x init]; [cbn in Hlen; lia |].
    injection Hlast as <- _. rewrite Hinput. now destruct (negb _ && _).
  - intros Hone Hv Hp. rewrite Hinput, Hv, Hp. cbn.
    destruct init as [| x init]; [| cbn in Hlen; lia].
    now injection Hlast as <-.
Qed.

End PlannerFurther.

Section PlannerFurtherExamples.
Import Sample Async.

#[local] Existing Instance errors_by_name.
#[local] Existing Instance no_filter.

(** The end-to-end scenario with HTTP 200: the plan of the server comes
    back and the chat model is not called. *)
Lemma server_plan_is_returned_witness :
  let this := agent 0 true true history (Some server_first) in
  let R := runtime (inr http_200) (inl auth_error) in
  let '(r, tr) := run (execute (H1 := R) this) in
  r = inr {| output_id := "planner"; result := Some (plan true); error := None |} /\
  events tr = [step_start; {| actor := PLANNER; state := STEP_OK; data := "FINAL" |}] /\
  requests tr = [FetchGet "https://x/planner/ReplyMessage/Facebook"].
Proof.
  exact (server_plan_is_returned (H1 := runtime (inr http_200) (inl auth_error))
           (agent 0 true true history (Some server_first)) (plan true) eq_refl eq_refl).
Defined.

(** HTTP 500 at step 0: the step settles as it does without a server. *)
Lemma fallback_as_direct_witness :
  let this := agent 0 true true history (Some server_first) in
  let R := runtime (inr http_500) (inr (Some (plan false))) in
  fst (execute (H1 := R) this no_trace)
    = fst (execute (H1 := R) (without_config this) no_trace) /\
  events (snd (execute (H1 := R) this no_trace))
    = events (snd (execute (H1 := R) (without_config this) no_trace)).
Proof.
  exact (fallback_as_direct (H1 := runtime (inr http_500) (inr (Some (plan false))))
           (agent 0 true true history (Some server_first)) no_trace eq_refl eq_refl).
Defined.

(** The chat model is aborted at a later step. *)
Lemma rejections_are_typed_witness :
  is_typed_error (RequestCancelledError "The operation was aborted.") = true.
Proof.
  exact (rejections_are_typed (H := errors_by_name) (H0 := no_filter)
           (H1 := runtime (inr http_500) (inl abort_error))
           (agent 1 true true history None) no_trace
           (add_request (LlmInvoke history) (add_event step_start no_trace))
           (RequestCancelledError "The operation was aborted.") eq_refl).
Defined.

(** The chat model resolves with [null] at a later step. *)
Lemma unclassified_failure_is_reported_witness :
  let this := agent 1 true true history None in
  let R := runtime (inr http_500) (inr None) in
  let '(r, tr) := run (execute (H1 := R) this) in
  r = inr {| output_id := "planner"; result := None;
             error := Some "Failed to validate planner output" |} /\
  events tr =
    [step_start;
     {| actor := PLANNER; state := STEP_FAIL;
        data := "Planning failed: Failed to validate planner output" |}] /\
  last (logs tr) =
    Some {| level := log_error;
            args := ["Planning failed: Failed to validate planner output"] |}.
Proof.
  refine (unclassified_failure_is_reported (H1 := runtime (inr http_500) (inr None))
            (agent 1 true true history None)
            (JsError "Error" "Failed to validate planner output") _ eq_refl eq_refl).
  discriminate.
Defined.

(** The provider refuses the model: the caller sees the fixed message. *)
Lemma classified_failure_is_rethrown_witness :
  let this := agent 1 true true history None in
  let denied := JsError "ForbiddenError" "403 model gpt-5 is not enabled for org-123" in
  let R := runtime (inr http_500) (inl denied) in
  let '(r, tr) := run (execute (H1 := R) this) in
  r = inl (ChatModelForbiddenError "Access denied" denied) /\
  events tr = [step_start].
Proof.
  refine (classified_failure_is_rethrown
            (H1 := runtime (inr http_500)
                     (inl (JsError "ForbiddenError"
                             "403 model gpt-5 is not enabled for org-123")))
            (agent 1 true true history None)
            (JsError "ForbiddenError" "403 model gpt-5 is not enabled for org-123")
            _ eq_refl _); discriminate.
Defined.

(** A history of three messages, and a history that holds nothing but the
    system prompt of the navigator. *)
Lemma planning_input_shape_witness :
  let R := runtime (inr http_500) (inr None) in
  head (planning_input (H := R) (agent 1 true false history None)) = Some system_prompt /\
  planning_input (H := R) (agent 0 true false [system_prompt] None)
    = [HumanMessage "You are a planner."].
Proof.
  split.
  - apply (proj1 (proj2 (planning_input_shape (H1 := runtime (inr http_500) (inr None))
                           (agent 1 true false history None)))).
    cbn. lia.
  - apply (proj2 (proj2 (planning_input_shape (H1 := runtime (inr http_500) (inr None))
                           (agent 0 true false [system_prompt] None))));
      [cbn; lia | reflexivity | reflexivity].
Defined.

(** The server of the end-to-end scenario, asked once. *)
Lemma executeWithServerPlan_resolves_witness :
  let this := agent 0 true true history (Some server_first) in
  let R := runtime (inr http_200) (inr None) in
  Js.truthy_string (config_serverPlanEndpoint this) = true /\
  remote_plan (fetch (Runtime := R) (server_url this)) = Some (plan true).
Proof.
  exact (proj1 (executeWithServerPlan_resolves (H1 := runtime (inr http_200) (inr None))
                  (agent 0 true true history (Some server_first)) no_trace (plan true))
           eq_refl).
Defined.

End PlannerFurtherExamples.

(** ** The initialization service, continued *)

Section InitializationFurther.
Import Initialization Setup.
Context `{StorageModule} `{Environment}.

(** The run of the service when the store holds no provider, by the
    outcomes of the three writes: a rejected write ends the setup. *)
Lemma ensureDefaultConfiguration_fresh (w : World)
    (stored : gmap string ProviderConfig) (s1 : Storage) :
  getAllProviders (storage w) = (inr stored, s1) ->
  (0 <? length (Object_keys stored))%nat = false ->
  ensureDefaultConfiguration w =
    match setProvider "replyzy" replyzyProvider s1 with
    | (inl e, s2) =>
        (inr tt, {| storage := s2; calls := calls w ++ take 2 setup_calls;
                    log_lines := log_lines w ++ take 1 setup_lines ++ [failed_line e] |})
    | (inr _, s2) =>
        match setAgentModel Planner defaultModel s2 with
        | (inl e, s3) =>
            (inr tt, {| storage := s3; calls := calls w ++ take 3 setup_calls;
                        log_lines := log_lines w ++ take 2 setup_lines ++ [failed_line e] |})
        | (inr _, s3) =>
            match setAgentModel Navigator defaultModel s3 with
            | (inl e, s4) =>
                (inr tt, {| storage := s4; calls := calls w ++ setup_calls;
                            log_lines := log_lines w ++ take 3 setup_lines
                                           ++ [failed_line e] |})
            | (inr _, s4) =>
                (inr tt, {| storage := s4; calls := calls w ++ setup_calls;
                            log_lines := log_lines w ++ setup_lines |})
            end
        end
    end.
Proof.
  intros Hget Hkeys.
  unfold ensureDefaultConfiguration, Eff.try_catch, ensureDefaultConfiguration_try.
  unfold Eff.await at 1.
  unfold llmProviderStore_getAllProviders at 1. unfold store_call at 1.
  rewrite Hget, Hkeys.
  unfold setup_calls, setup_lines, failed_line, replyzyProvider, defaultModel,
    getModelParameters.
  unfold Eff.await, logger_info, logger_error, llmProviderStore_setProvider,
    agentModelStore_setAgentModel, store_call. cbv zeta. cbn [storage calls log_lines].
  destruct (setProvider "replyzy" _ s1) as [[e2 | []] s2]; cbn.
  { rewrite <- !app_assoc. reflexivity. }
  destruct (setAgentModel Planner _ s2) as [[e3 | []] s3]; cbn.
  { rewrite <- !app_assoc. reflexivity. }
  destruct (setAgentModel Navigator _ s3) as [[e4 | []] s4];
    cbn; rewrite <- !app_assoc; reflexivity.
Qed.

Lemma ensureDefaultConfiguration_read_rejects (w : World) (e : JsThrown) (s1 : Storage) :
  getAllProviders (storage w) = (inl e, s1) ->
  ensureDefaultConfiguration w =
    (inr tt, {| storage := s1; calls := calls w ++ take 1 setup_calls;
                log_lines := log_lines w ++ [failed_line e] |}).
Proof.
  intros Hget.
  unfold ensureDefaultConfiguration, Eff.try_catch, ensureDefaultConfiguration_try.
  unfold Eff.await at 1.
  unfold llmProviderStore_getAllProviders at 1. unfold store_call at 1.
  rewrite Hget. reflexivity.
Qed.

Lemma Object_keys_empty {V : Type} : Object_keys (∅ : gmap string V) = [].
Proof. unfold Object_keys. now rewrite map_to_list_empty. Qed.

(** X14. Whatever the store does, the store calls of one run are a
    beginning of the fixed sequence: read the providers, write the
    provider [replyzy], write the planner model, write the navigator
    model.  No call is made twice, and no model is written before the
    provider. *)
Theorem store_calls_prefix (w : World) :
  exists n : nat,
    (1 <= n <= 4)%nat /\
    calls (snd (ensureDefaultConfiguration w)) = (calls w ++ take n setup_calls)%list.
Proof.
  destruct (getAllProviders (storage w)) as [[e | stored] s1] eqn:Hget.
  - exists 1%nat. rewrite (ensureDefaultConfiguration_read_rejects w e s1 Hget).
    split; [lia | reflexivity].
  - destruct (0 <? length (Object_keys stored))%nat eqn:Hkeys.
    + exists 1%nat. rewrite (ensureDefaultConfiguration_skips w stored s1 Hget Hkeys).
      split; [lia | reflexivity].
    + rewrite (ensureDefaultConfiguration_fresh w stored s1 Hget Hkeys).
      destruct (setProvider "replyzy" replyzyProvider s1) as [[e2 | u2] s2];
        [exists 2%nat; split; [lia | reflexivity] |].
      destruct (setAgentModel Planner defaultModel s2) as [[e3 | u3] s3];
        [exists 3%nat; split; [lia | reflexivity] |].
      destruct (setAgentModel Navigator defaultModel s3) as [[e4 | u4] s4];
        exists 4%nat; (split; [lia | reflexivity]).
Qed.

(** X15. On a store without providers whose writes all resolve, the
    service creates the provider [replyzy] (type CustomOpenAI, empty API
    key, models gpt-5 and gpt-5-mini, base URL from the build environment
    or http://localhost:7200/), then sets gpt-5-mini with medium reasoning
    effort for the planner and for the navigator, in this order, and logs
    five information lines and no error. *)
Theorem complete_setup (w : World) (s1 s2 s3 s4 : Storage) :
  getAllProviders (storage w) = (inr ∅, s1) ->
  setProvider "replyzy" replyzyProvider s1 = (inr tt, s2) ->
  setAgentModel Planner defaultModel s2 = (inr tt, s3) ->
  setAgentModel Navigator defaultModel s3 = (inr tt, s4) ->
  ensureDefaultConfiguration w =
    (inr tt, {| storage := s4;
                calls := calls w ++ setup_calls;
                log_lines := log_lines w ++ setup_lines |}).
Proof.
  intros Hget Hp Hplanner Hnavigator.
  rewrite (ensureDefaultConfiguration_fresh w ∅ s1 Hget)
    by now rewrite Object_keys_empty.
  now rewrite Hp, Hplanner, Hnavigator.
Qed.

(** X16. A rejected store operation ends the setup: the later writes are
    not attempted, the storage stays as the rejected operation left it,
    and the last log line reports the rejection at error level.  So a
    rejected read writes nothing, a rejected provider write leaves both
    agent models unwritten, a rejected planner write leaves the navigator
    model unwritten, and a rejected navigator write, the last operation,
    is reported instead of the line of a completed setup. *)
Theorem rejection_ends_setup (w : World) (e : JsThrown) :
  (forall s1,
      getAllProviders (storage w) = (inl e, s1) ->
      let w' := snd (ensureDefaultConfiguration w) in
      calls w' = (calls w ++ [GetAllProviders])%list /\ storage w' = s1 /\
      last (log_lines w') = Some (failed_line e)) /\
  (forall s1 s2,
      getAllProviders (storage w) = (inr ∅, s1) ->
      setProvider "replyzy" replyzyProvider s1 = (inl e, s2) ->
      let w' := snd (ensureDefaultConfiguration w) in
      calls w' = (calls w ++ [GetAllProviders; SetProvider "replyzy" replyzyProvider])%list /\
      storage w' = s2 /\
      last (log_lines w') = Some (failed_line e)) /\
  (forall s1 s2 s3,
      getAllProviders (storage w) = (inr ∅, s1) ->
      setProvider "replyzy" replyzyProvider s1 = (inr tt, s2) ->
      setAgentModel Planner defaultModel s2 = (inl e, s3) ->
      let w' := snd (ensureDefaultConfiguration w) in
      calls w' = (calls w ++ [GetAllProviders; SetProvider "replyzy" replyzyProvider;
                              SetAgentModel Planner defaultModel])%list /\
      storage w' = s3 /\
      last (log_lines w') = Some (failed_line e)) /\
  (forall s1 s2 s3 s4,
      getAllProviders (storage w) = (inr ∅, s1) ->
      setProvider "replyzy" replyzyProvider s1 = (inr tt, s2) ->
      setAgentModel Planner defaultModel s2 = (inr tt, s3) ->
      setAgentModel Navigator defaultModel s3 = (inl e, s4) ->
      let w' := snd (ensureDefaultConfiguration w) in
      calls w' = (calls w ++ [GetAllProviders; SetProvider "replyzy" replyzyProvider;
                              SetAgentModel Planner defaultModel;
                              SetAgentModel Navigator defaultModel])%list /\
      storage w' = s4 /\
      log_lines w' = (log_lines w ++ take 3 setup_lines ++ [failed_line e])%list /\
      last (log_lines w') = Some (failed_line e)).
Proof.
  split; [| split; [| split]].
  - intros s1 Hget. rewrite (ensureDefaultConfiguration_read_rejects w e s1 Hget).
    cbn. now rewrite last_snoc.
  - intros s1 s2 Hget Hp.
    rewrite (ensureDefaultConfiguration_fresh w ∅ s1 Hget)
      by now rewrite Object_keys_empty.
    rewrite Hp. cbn [snd calls storage log_lines].
    rewrite !app_assoc, last_snoc. auto.
  - intros s1 s2 s3 Hget Hp Hplanner.
    rewrite (ensureDefaultConfiguration_fresh w ∅ s1 Hget)
      by now rewrite Object_keys_empty.
    rewrite Hp, Hplanner. cbn [snd calls storage log_lines].
    rewrite !app_assoc, last_snoc. auto.
  - intros s1 s2 s3 s4 Hget Hp Hplanner Hnavigator.
    rewrite (ensureDefaultConfiguration_fresh w ∅ s1 Hget)
      by now rewrite Object_keys_empty.
    rewrite Hp, Hplanner, Hnavigator. cbn [snd calls storage log_lines].
    repeat split. now rewrite !app_assoc, last_snoc.
Qed.

End InitializationFurther.

(** A store that behaves as a map of providers: reading returns the
    providers and changes nothing, writing a provider always succeeds and
    adds it, and writing an agent model does not touch the providers. *)
Section LawfulStore.
Import Initialization Setup.
Context `{StorageModule} `{Environment}.
Variable view : Storage -> gmap string ProviderConfig.
Hypothesis read_view : forall s, getAllProviders s = (inr (view s), s).
Hypothesis write_provider : forall providerId config s,
  exists s', setProvider providerId config s = (inr tt, s') /\
             view s' = <[providerId := config]> (view s).
Hypothesis write_model : forall agent config s,
  view (snd (setAgentModel agent config s)) = view s.

Lemma providers_after_run (w : World) :
  exists providerId config,
    view (storage (snd (ensureDefaultConfiguration w))) !! providerId = Some config.
Proof.
  destruct (0 <? length (Object_keys (view (storage w))))%nat eqn:Hkeys.
  - rewrite (ensureDefaultConfiguration_skips w _ _ (read_view _) Hkeys).
    cbn [snd storage].
    destruct (map_to_list (view (storage w))) as [| [k v] l] eqn:Hl.
    { unfold Object_keys in Hkeys. now rewrite Hl in Hkeys. }
    exists k, v. apply elem_of_map_to_list. rewrite Hl. left.
  - rewrite (ensureDefaultConfiguration_fresh w _ _ (read_view _) Hkeys).
    destruct (write_provider "replyzy" replyzyProvider (storage w)) as (s2 & -> & Hv2).
    exists "replyzy", replyzyProvider.
    pose proof (write_model Planner defaultModel s2) as Hv3.
    destruct (setAgentModel Planner defaultModel s2) as [[e3 | u3] s3];
      cbn [snd storage] in *.
    { now rewrite Hv3, Hv2, lookup_insert_eq. }
    pose proof (write_model Navigator defaultModel s3) as Hv4.
    destruct (setAgentModel Navigator defaultModel s3) as [[e4 | u4] s4];
      cbn [snd storage] in *; now rewrite Hv4, Hv3, Hv2, lookup_insert_eq.
Qed.

(** X17. On such a store the setup is applied once: a second run of the
    service, after a first run of any outcome, only reads the providers
    and writes nothing. *)
Theorem second_run_writes_nothing (w : World) :
  let w1 := snd (ensureDefaultConfiguration w) in
  let w2 := snd (ensureDefaultConfiguration w1) in
  calls w2 = (calls w1 ++ [GetAllProviders])%list /\
  storage w2 = storage w1.
Proof.
  cbv zeta.
  destruct (providers_after_run w) as (k & v & Hk).
  rewrite (ensureDefaultConfiguration_skips _ _ _ (read_view _)
             (Object_keys_lookup _ k v Hk)).
  auto.
Qed.

End LawfulStore.

Section InitializationFurtherExamples.
Import Initialization Setup.

(** A fresh profile on a store that accepts every write. *)
Lemma complete_setup_witness :
  let E := SampleStore.environment in
  ensureDefaultConfiguration (H := ReliableStore.store) (H0 := E) ReliableStore.empty =
    (inr tt,
     {| storage :=
          ((<["replyzy" := replyzyProvider (H := E)]> ∅,
            [(Navigator, defaultModel); (Planner, defaultModel)]) : @Storage ReliableStore.store);
        calls := setup_calls (H := E);
        log_lines := setup_lines (H := E) |}).
Proof.
  exact (complete_setup (H := ReliableStore.store) (H0 := SampleStore.environment)
           ReliableStore.empty
           (∅, [])
           (<["replyzy" := replyzyProvider (H := SampleStore.environment)]> ∅, [])
           (<["replyzy" := replyzyProvider (H := SampleStore.environment)]> ∅,
            [(Planner, defaultModel)])
           (<["replyzy" := replyzyProvider (H := SampleStore.environment)]> ∅,
            [(Navigator, defaultModel); (Planner, defaultModel)])
           eq_refl eq_refl eq_refl eq_refl).
Defined.

(** A fresh profile whose storage accepts one write: the provider is
    written, the planner model is rejected, the navigator model is not
    attempted.  And one whose storage accepts two: the navigator model is
    rejected and the rejection is the last line of the log. *)
Lemma rejection_ends_setup_witness :
  let E := SampleStore.environment in
  (let w' := snd (ensureDefaultConfiguration (H := SampleStore.store) (H0 := E)
                    SampleStore.fresh_nearly_full) in
   calls w' = [GetAllProviders; SetProvider "replyzy" (replyzyProvider (H := E));
               SetAgentModel Planner defaultModel] /\
   storage w' = SampleStore.mkState {["replyzy" := replyzyProvider (H := E)]} [] 0 /\
   last (log_lines w') = Some (failed_line SampleStore.quota_error))
  /\
  (let w' := snd (ensureDefaultConfiguration (H := SampleStore.store) (H0 := E)
                    SampleStore.fresh_two_writes) in
   calls w' = [GetAllProviders; SetProvider "replyzy" (replyzyProvider (H := E));
               SetAgentModel Planner defaultModel; SetAgentModel Navigator defaultModel] /\
   storage w' = SampleStore.mkState {["replyzy" := replyzyProvider (H := E)]}
                  [(Planner, defaultModel)] 0 /\
   log_lines w' = (take 3 (setup_lines (H := E))
                     ++ [failed_line SampleStore.quota_error])%list /\
   last (log_lines w') = Some (failed_line SampleStore.quota_error)).
Proof.
  split.
  - exact (proj1 (proj2 (proj2 (rejection_ends_setup (H := SampleStore.store)
                                  (H0 := SampleStore.environment)
                                  SampleStore.fresh_nearly_full SampleStore.quota_error)))
             (SampleStore.mkState ∅ [] 1)
             (SampleStore.mkState
                {["replyzy" := replyzyProvider (H := SampleStore.environment)]} [] 0)
             (SampleStore.mkState
                {["replyzy" := replyzyProvider (H := SampleStore.environment)]} [] 0)
             eq_refl eq_refl eq_refl).
  - exact (proj2 (proj2 (proj2 (rejection_ends_setup (H := SampleStore.store)
                                  (H0 := SampleStore.environment)
                                  SampleStore.fresh_two_writes SampleStore.quota_error)))
             (SampleStore.mkState ∅ [] 2)
             (SampleStore.mkState
                {["replyzy" := replyzyProvider (H := SampleStore.environment)]} [] 1)
             (SampleStore.mkState
                {["replyzy" := replyzyProvider (H := SampleStore.environment)]}
                [(Planner, defaultModel)] 0)
             (SampleStore.mkState
                {["replyzy" := replyzyProvider (H := SampleStore.environment)]}
                [(Planner, defaultModel)] 0)
             eq_refl eq_refl eq_refl eq_refl).
Defined.

(** Two runs in a row on a fresh profile. *)
Lemma second_run_writes_nothing_witness :
  let E := SampleStore.environment in
  let w1 := snd (ensureDefaultConfiguration (H := ReliableStore.store) (H0 := E)
                   ReliableStore.empty) in
  let w2 := snd (ensureDefaultConfiguration (H := ReliableStore.store) (H0 := E) w1) in
  calls w2 = (calls w1 ++ [GetAllProviders])%list /\
  storage w2 = storage w1.
Proof.
  refine (second_run_writes_nothing (H := ReliableStore.store)
            (H0 := SampleStore.environment) fst _ _ _ ReliableStore.empty).
  - intros s. reflexivity.
  - intros providerId config s. eexists. split; reflexivity.
  - intros agent config s. reflexivity.
Defined.

End InitializationFurtherExamples.

(** A body that the schema does not accept: the error line of the fallback
    carries the message of the [ZodError] alone, without its name. *)
Example schema_invalid_body_line :
  let R := Sample.runtime (inr {| status := 200; statusText := "OK"; body := inr JNull |})
             (inr (Some (Sample.plan true))) in
  let this := Sample.agent 0 true true Sample.history (Some Sample.server_first) in
  remote_error (H := R) (fetch (Runtime := R) (server_url this)) = Some (JsZodError "[...]")
  /\ logs (snd (Async.run (execute (H := Sample.errors_by_name) (H0 := Sample.no_filter)
                             (H1 := R) this))) =
       (attempt_lines this (JsZodError "[...]") ++
        [{| level := log_info; args := ["Planner output"; "{...}"] |}])%list
  /\ String_ (JsZodError "[...]") = "[...]".
Proof. cbv zeta. repeat split. Qed.
